(** * Worker node of the multi-agent flow (Worker_MultiAgents)

    A shallow embedding of [Worker_MultiAgents.init], [createAgent] and
    [agentNode], together with the JavaScript built-ins they call, and the
    properties of the worker construction and invocation path.

    Conventions.
    - A JavaScript string is a [string] of the Standard Library; each
      character stands for one code unit in U+0000..U+00FF (Latin-1), on
      which [toLowerCase], the class [\s] and [trim] act unit by unit.  The
      worker name is also treated over all of UTF-16, as a list of code
      units ([JsUnits]).
    - Dynamically typed values ([any], [ICommonObject]) are [jsval]s.
    - A function that may throw returns [exn + A]; code that calls
      [createAgent] or the agent library runs in the monad [M], whose state
      [World] holds the abort signals and the calls made so far.
    - LangChain constructors ([ChatPromptTemplate.fromMessages],
      [RunnableSequence.from], [AgentExecutor.fromAgentAndTools]) give back
      the data they are given, or throw the error with which the library
      refuses it; [new HumanMessage] puts an empty object in the place of
      missing auxiliary fields. *)

From Stdlib Require Import String Ascii List Bool Arith ZArith Lia.
From Stdlib Require Import Numbers.DecimalString.
From Stdlib Require Numbers.DecimalZ Numbers.DecimalPos.
Import ListNotations.

Open Scope list_scope.
Open Scope string_scope.

(** ** JavaScript strings *)

Module JsString.

(** Code unit of a character, and the character tests used below. *)
Definition code (c : ascii) : nat := nat_of_ascii c.

(** [WhiteSpace] and [LineTerminator] code units below U+0100: TAB, LF, VT,
    FF, CR, SP and NBSP.  This is both the regular-expression class [\s] and
    the set removed by [String.prototype.trim]. *)
Definition isWhiteSpace (c : ascii) : bool :=
  let n := code c in
  (Nat.leb 9 n && Nat.leb n 13) || Nat.eqb n 32 || Nat.eqb n 160.

(** Upper-case letters below U+0100: A-Z, and U+00C0..U+00DE except the
    multiplication sign U+00D7.  Each has its lower-case form 32 above. *)
Definition isUpper (c : ascii) : bool :=
  let n := code c in
  (Nat.leb 65 n && Nat.leb n 90) ||
  (Nat.leb 192 n && Nat.leb n 222 && negb (Nat.eqb n 215)).

Definition lowerChar (c : ascii) : ascii :=
  if isUpper c then ascii_of_nat (code c + 32) else c.

Fixpoint map (f : ascii -> ascii) (s : string) : string :=
  match s with
  | "" => ""
  | String c r => String (f c) (map f r)
  end.

(** [s.toLowerCase()] *)
Definition toLowerCase (s : string) : string := map lowerChar s.

(** [s.replace(/\s/g, '_')]: the replacement text has no [$] pattern, so
    every white-space unit becomes one underscore. *)
Definition replace_whitespace_g (s : string) : string :=
  map (fun c => if isWhiteSpace c then "_"%char else c) s.

Fixpoint trimStart (s : string) : string :=
  match s with
  | "" => ""
  | String c r => if isWhiteSpace c then trimStart r else s
  end.

Fixpoint trimEnd (s : string) : string :=
  match s with
  | "" => ""
  | String c r =>
      match trimEnd r with
      | "" => if isWhiteSpace c then "" else String c ""
      | r' => String c r'
      end
  end.

(** [s.trim()] *)
Definition trim (s : string) : string := trimEnd (trimStart s).

(** Truthiness of a string: only the empty string is falsy. *)
Definition truthy (s : string) : bool :=
  match s with "" => false | _ => true end.

(** [xs.includes(x)] on an array of strings. *)
Definition includes (xs : list string) (x : string) : bool :=
  existsb (String.eqb x) xs.

(** [s.startsWith(p)] at the cursor of a scan. *)
Fixpoint startsWith (p s : string) : bool :=
  match p with
  | "" => true
  | String a p' =>
      match s with
      | "" => false
      | String b s' => Ascii.eqb a b && startsWith p' s'
      end
  end.

Fixpoint drop (n : nat) (s : string) : string :=
  match n with
  | O => s
  | S k => match s with "" => "" | String _ r => drop k r end
  end.

(** [GetSubstitution(matched, str, position, captures = [], undefined,
    template)] of ECMA-262, as [replaceAll] with a string pattern calls it:
    [before] is [str] up to [position] and [after] is [str] from the end of
    the match.  There are no captures, so [$1], [$<name>] and a lone [$]
    stay as they are written. *)
Fixpoint GetSubstitution (matched before after template : string) : string :=
  match template with
  | "" => ""
  | String c r =>
      if Ascii.eqb c "$" then
        match r with
        | String d r' =>
            if Ascii.eqb d "$" then String "$" (GetSubstitution matched before after r')
            else if Ascii.eqb d "`" then before ++ GetSubstitution matched before after r'
            else if Ascii.eqb d "&" then matched ++ GetSubstitution matched before after r'
            else if Ascii.eqb d "'" then after ++ GetSubstitution matched before after r'
            else String c (GetSubstitution matched before after r)
        | "" => String c ""
        end
      else String c (GetSubstitution matched before after r)
  end.

(** The scan of [String.prototype.replaceAll(searchString, replaceValue)]
    with a string pattern and a string replacement.  [before] is the text
    already passed, [skip] the number of units of the current match still to
    be passed over.  Matches are found left to right and do not overlap; an
    empty pattern matches before every unit and at the end. *)
Fixpoint replaceAll_scan (searchString replaceValue before s : string)
         (skip : nat) {struct s} : string :=
  match skip with
  | S k =>
      match s with
      | "" => ""
      | String c r =>
          replaceAll_scan searchString replaceValue (before ++ String c "") r k
      end
  | O =>
      if startsWith searchString s then
        GetSubstitution searchString before
          (drop (String.length searchString) s) replaceValue ++
        match s with
        | "" => ""
        | String c r =>
            match String.length searchString with
            | O => String c (replaceAll_scan searchString replaceValue
                               (before ++ String c "") r 0)
            | S k => replaceAll_scan searchString replaceValue
                       (before ++ String c "") r k
            end
        end
      else
        match s with
        | "" => ""
        | String c r =>
            String c (replaceAll_scan searchString replaceValue
                        (before ++ String c "") r 0)
        end
  end.

(** [s.replaceAll(searchString, replaceValue)] *)
Definition replaceAll (s searchString replaceValue : string) : string :=
  replaceAll_scan searchString replaceValue "" s 0.

(** [s.includes(p)]: [p] occurs somewhere in [s]. *)
Fixpoint occurs (p s : string) : bool :=
  startsWith p s ||
  match s with
  | "" => false
  | String _ r => occurs p r
  end.

(** [c] is one of the units of [s]. *)
Fixpoint mem (c : ascii) (s : string) : bool :=
  match s with
  | "" => false
  | String a r => Ascii.eqb c a || mem c r
  end.

End JsString.

(** ** JavaScript values *)

(** The integers that a number holds exactly and prints in plain decimal
    form: those up to [Number.MAX_SAFE_INTEGER] in magnitude. *)
Definition is_safe_integer (z : Z) : bool :=
  Z.leb (Z.abs z) 9007199254740991.

Record safe_integer : Type := {
  integer_value : Z;
  integer_is_safe : is_safe_integer integer_value = true
}.

(** A value of type [any], as [JSON.parse] or a flow configuration gives
    it: no function, numbers the safe integers, an object the list of its
    own enumerable properties, each key once, on the prototype
    [Object.prototype] (an array on [Array.prototype]). *)
#[warnings="-register-all"] Inductive jsval : Type :=
| JUndefined
| JNull
| JBool (b : bool)
| JNum (n : safe_integer)
| JStr (s : string)
| JArr (elems : list jsval)
| JObj (props : list (string * jsval)).

(** A thrown value: [new Error(message)], or a [TypeError] of the engine
    (a property of [undefined] or [null] is read, an object has no
    primitive value). *)
Inductive exn : Type :=
| Error (message : string)
| TypeError (message : string).

(** A member that may be [null] or [undefined]. *)
Inductive nullable (A : Type) : Type :=
| IsUndefined
| IsNull
| Has (a : A).
Arguments IsUndefined {A}.
Arguments IsNull {A}.
Arguments Has {A} a.

Module Js.

(** [ToBoolean] *)
Definition truthy (v : jsval) : bool :=
  match v with
  | JUndefined | JNull => false
  | JBool b => b
  | JNum n => negb (Z.eqb (integer_value n) 0)
  | JStr s => JsString.truthy s
  | JArr _ | JObj _ => true
  end.

(** [typeof v === 'object'] *)
Definition typeof_object (v : jsval) : bool :=
  match v with
  | JNull | JArr _ | JObj _ => true
  | _ => false
  end.

Fixpoint join (sep : string) (parts : list string) : string :=
  match parts with
  | [] => ""
  | [p] => p
  | p :: rest => p ++ sep ++ join sep rest
  end.

(** Success of each step of a list, in order. *)
Fixpoint all_or_first_error {A : Type} (steps : list (exn + A)) : exn + list A :=
  match steps with
  | [] => inr []
  | inl e :: _ => inl e
  | inr a :: rest =>
      match all_or_first_error rest with
      | inl e => inl e
      | inr others => inr (a :: others)
      end
  end.

(** [ToString].  An array joins its elements with commas, [null] and
    [undefined] elements giving the empty text.  An object is converted by
    [OrdinaryToPrimitive]: an own property [toString] hides
    [Object.prototype.toString] and, holding no function, is passed over;
    [valueOf] then gives no primitive, and the conversion throws a
    [TypeError].  Without an own [toString] the text is [[object Object]]. *)
Fixpoint ToString (v : jsval) : exn + string :=
  match v with
  | JUndefined => inr "undefined"
  | JNull => inr "null"
  | JBool true => inr "true"
  | JBool false => inr "false"
  | JNum n => inr (NilZero.string_of_int (Z.to_int (integer_value n)))
  | JStr s => inr s
  | JArr elems =>
      match
        all_or_first_error
          ((fix each (l : list jsval) : list (exn + string) :=
              match l with
              | [] => []
              | e :: r =>
                  match e with
                  | JUndefined | JNull => inr ""
                  | _ => ToString e
                  end :: each r
              end) elems)
      with
      | inl e => inl e
      | inr parts => inr (join "," parts)
      end
  | JObj props =>
      if JsString.includes (List.map fst props) "toString"
      then inl (TypeError "Cannot convert object to primitive value")
      else inr "[object Object]"
  end.

Definition index_key (i : nat) : string :=
  NilZero.string_of_uint (Nat.to_uint i).

Fixpoint indexed (i : nat) (l : list jsval) : list (string * jsval) :=
  match l with
  | [] => []
  | e :: r => (index_key i, e) :: indexed (S i) r
  end.

Fixpoint units (s : string) : list jsval :=
  match s with
  | "" => []
  | String c r => JStr (String c "") :: units r
  end.

(** The own enumerable string-keyed properties of [ToObject(v)]; [None]
    where [ToObject] throws. *)
Definition own_properties (v : jsval) : option (list (string * jsval)) :=
  match v with
  | JUndefined | JNull => None
  | JBool _ | JNum _ => Some []
  | JStr s => Some (indexed 0 (units s))
  | JArr elems => Some (indexed 0 elems)
  | JObj props => Some props
  end.

(** [Object.keys(v)] (the order of the keys plays no part below). *)
Definition Object_keys (v : jsval) : exn + list string :=
  match own_properties v with
  | None => inl (TypeError "Cannot convert undefined or null to object")
  | Some props => inr (List.map fst props)
  end.

Fixpoint lookup (props : list (string * jsval)) (key : string) : jsval :=
  match props with
  | [] => JUndefined
  | (k, v) :: rest => if String.eqb key k then v else lookup rest key
  end.

(** [v[key]] for an own property [key] of [v]; inherited members are not
    modelled: the worker reads a key only after finding it in
    [Object.keys(v)], or reads [usedTools], [sourceDocuments] and [output],
    which no prototype defines. *)
Definition Get (v : jsval) (key : string) : exn + jsval :=
  match own_properties v with
  | None => inl (TypeError "Cannot read properties of undefined")
  | Some props => inr (lookup props key)
  end.

End Js.

(** ** Helpers of the repository outside this file *)

(** Modelled from the spec: [getInputVariables] of [src/utils] is not among
    the sources.  The spec (4.1): "given a template string containing zero
    or more {name} placeholders, extract the ordered set of referenced
    names".  The scan below reads a name from an opening brace to the next
    closing brace and keeps the first occurrence of each name.  [init] is
    stated over any extractor; this one serves the examples. *)
Fixpoint scan_placeholders (current : option string) (s : string) : list string :=
  match s with
  | "" => []
  | String c r =>
      if Ascii.eqb c "{" then scan_placeholders (Some "") r
      else if Ascii.eqb c "}" then
        match current with
        | Some n => n :: scan_placeholders None r
        | None => scan_placeholders None r
        end
      else
        scan_placeholders
          (match current with
           | Some n => Some (n ++ String c "")
           | None => None
           end) r
  end.

Fixpoint ordered_set (seen names : list string) : list string :=
  match names with
  | [] => []
  | n :: rest =>
      if JsString.includes seen n then ordered_set seen rest
      else n :: ordered_set (n :: seen) rest
  end.

Definition getInputVariables_spec (paramValue : string) : list string :=
  ordered_set [] (scan_placeholders None paramValue).

(** ** A stand-in for [JSON.parse] *)

(** The safe integer of [z], when [z] is one. *)
Definition safe_integer_of (z : Z) : option safe_integer :=
  match is_safe_integer z as b return is_safe_integer z = b -> option safe_integer with
  | true => fun safe => Some {| integer_value := z; integer_is_safe := safe |}
  | false => fun _ => None
  end eq_refl.

(** The integer written by [text] in plain decimal form, without leading
    zero or sign of zero. *)
Definition integer_of_text (text : string) : option Z :=
  match NilZero.int_of_string text with
  | Some d =>
      if String.eqb (NilZero.string_of_int (Z.to_int (Z.of_int d))) text
      then Some (Z.of_int d) else None
  | None => None
  end.

(** A stand-in for [JSON.parse] in the examples: it reads the empty
    object, the three literals and the safe integers; to any other text it
    answers as Node does to an input that ends too early (the empty text, a
    lone opening brace: the rejected texts of the examples). *)
Definition JSON_parse_sample (text : string) : string + jsval :=
  if String.eqb text "{}" then inr (JObj [])
  else if String.eqb text "null" then inr JNull
  else if String.eqb text "true" then inr (JBool true)
  else if String.eqb text "false" then inr (JBool false)
  else
    match integer_of_text text with
    | Some z =>
        match safe_integer_of z with
        | Some n => inr (JNum n)
        | None => inl "SyntaxError: Unexpected end of JSON input"
        end
    | None => inl "SyntaxError: Unexpected end of JSON input"
    end.

(** ** Strings of any code units

    The worker name over all of UTF-16: a string as the list of its code
    units, with [toLowerCase] left to the Unicode tables. *)

Module JsUnits.

(** The units of [WhiteSpace] and [LineTerminator]: the class [\s] and
    the set removed by [trim]. *)
Definition isWhiteSpace (u : N) : bool :=
  ((9 <=? u) && (u <=? 13) || (u =? 32) || (u =? 160) || (u =? 5760) ||
   (8192 <=? u) && (u <=? 8202) || (u =? 8232) || (u =? 8233) ||
   (u =? 8239) || (u =? 8287) || (u =? 12288) || (u =? 65279))%N.

(** [s.replace(/\s/g, '_')] *)
Definition replace_whitespace_g (s : list N) : list N :=
  List.map (fun u => if isWhiteSpace u then 95%N else u) s.

Fixpoint trimStart (s : list N) : list N :=
  match s with
  | [] => []
  | u :: r => if isWhiteSpace u then trimStart r else s
  end.

Fixpoint trimEnd (s : list N) : list N :=
  match s with
  | [] => []
  | u :: r =>
      match trimEnd r with
      | [] => if isWhiteSpace u then [] else [u]
      | r' => u :: r'
      end
  end.

(** [s.trim()] *)
Definition trim (s : list N) : list N := trimEnd (trimStart s).

(** The units of a string below U+0100. *)
Fixpoint of_string (s : string) : list N :=
  match s with
  | "" => []
  | String c r => N_of_ascii c :: of_string r
  end.

(** [toLowerCase] unit by unit, as it is on the units below U+0100; the
    other units are left alone.  It stands in for the Unicode tables in the
    examples. *)
Definition lower_unit (u : N) : N :=
  if ((65 <=? u) && (u <=? 90) ||
      (192 <=? u) && (u <=? 222) && negb (u =? 215))%N
  then (u + 32)%N else u.

Definition toLowerCase_sample (s : list N) : list N := List.map lower_unit s.

End JsUnits.

(** [workerLabel.toLowerCase().replace(/\s/g, '_').trim()] on any string,
    given the [toLowerCase] of the engine. *)
Definition normalize_units (toLowerCase : list N -> list N)
    (workerLabel : list N) : list N :=
  JsUnits.trim (JsUnits.replace_whitespace_g (toLowerCase workerLabel)).


(** ** Library data and the call monad *)

Section Worker.

(** Library types the worker only passes along. *)
Variables Tool BoundModel number ITeamState RunnableConfig : Type.

(** The global [parseFloat] and [process.env.DEBUG]. *)
Variable parseFloat : string -> number.
Variable env_DEBUG : option string.

(** [JSON.parse]; on failure it gives the text of the exception, as
    [String(exception)] renders it. *)
Variable JSON_parse : string -> string + jsval.

(** [getInputVariables] of [src/utils], which this file imports. *)
Variable getInputVariables : string -> list string.

(** A chat model: [bindTools] is [undefined] on models without function
    calling; where defined, it returns the bound model or throws. *)
Record BaseChatModel : Type := {
  llm_id : string;
  bindTools : option (list Tool -> exn + BoundModel)
}.

(** An [AbortController], by identity; the state of its signal lives in the
    [World]. *)
Record AbortController : Type := { controller_id : nat }.
Record AbortSignal : Type := { signal_of : nat }.

Definition signal (c : AbortController) : AbortSignal :=
  {| signal_of := controller_id c |}.

Inductive PromptMessage : Type :=
| SystemMessage (template : string)
| MessagesPlaceholder (variableName : string).

Definition ChatPromptTemplate : Type := list PromptMessage.

Inductive Runnable : Type :=
| AssignAgentScratchpad
| Prompt (prompt : ChatPromptTemplate)
| Model (llm : option BaseChatModel)
| ModelWithTools (modelWithTools : BoundModel)
| ToolCallingAgentOutputParser
| StringOutputParser.

Definition RunnableSequence : Type := list Runnable.

Record AgentExecutor : Type := {
  executor_agent : RunnableSequence;
  executor_tools : list Tool;
  executor_sessionId : option string;
  executor_chatId : option string;
  executor_input : option string;
  executor_verbose : bool;
  executor_maxIterations : option number
}.

(** [AgentExecutor | RunnableSequence] *)
Inductive Agent : Type :=
| Executor (executor : AgentExecutor)
| Chain (conversationChain : RunnableSequence).

(** The checks of the agent library: the error, if any, with which
    [ChatPromptTemplate.fromMessages], [RunnableSequence.from] and
    [AgentExecutor.fromAgentAndTools] refuse what they are given.  (LangChain
    refuses a system message with a lone brace, and a sequence with an
    undefined step.) *)
Variable prompt_error : list PromptMessage -> option exn.
Variable sequence_error : list Runnable -> option exn.
Variable executor_error : AgentExecutor -> option exn.

(** [ChatPromptTemplate.fromMessages(messages)] *)
Definition ChatPromptTemplate_fromMessages (messages : list PromptMessage)
  : exn + ChatPromptTemplate :=
  match prompt_error messages with
  | Some e => inl e
  | None => inr messages
  end.

(** [RunnableSequence.from(steps)] *)
Definition RunnableSequence_from (steps : list Runnable) : exn + RunnableSequence :=
  match sequence_error steps with
  | Some e => inl e
  | None => inr steps
  end.

(** [AgentExecutor.fromAgentAndTools(fields)] *)
Definition AgentExecutor_fromAgentAndTools (fields : AgentExecutor)
  : exn + AgentExecutor :=
  match executor_error fields with
  | Some e => inl e
  | None => inr fields
  end.

Record FlowObj : Type := {
  flow_sessionId : option string;
  flow_chatId : option string;
  flow_input : option string
}.

(** [{ ...state, signal }] *)
Record InvokeInput : Type := {
  input_state : ITeamState;
  input_signal : AbortSignal
}.

(** What [agent.invoke] resolves to: the text of the [StringOutputParser]
    chain, or the [ChainValues] object of the executor. *)
Inductive InvokeResult : Type :=
| ResString (text : string)
| ResObject (props : list (string * jsval)).

(** The calls a run makes that the properties below speak about. *)
Inductive Event : Type :=
| CreateAgentCalled (llm : option BaseChatModel) (tools : list Tool)
    (systemPrompt : string) (maxIterations : option string)
    (flowObj : option FlowObj)
| AgentInvoked (agent : Agent) (input : InvokeInput) (config : RunnableConfig).

(** The part of the outside world a run reads and extends: which abort
    signals are set, and the calls made so far (oldest first). *)
Record World : Type := {
  aborted : nat -> bool;
  calls : list Event
}.

Definition record (e : Event) (w : World) : World :=
  {| aborted := aborted w; calls := calls w ++ [e] |}.

(** What the agent library answers to [agent.invoke(input, config)]. *)
Variable agent_invoke :
  Agent -> InvokeInput -> RunnableConfig -> World -> exn + InvokeResult.

Definition M (A : Type) : Type := World -> World * (exn + A).

Definition ret {A} (a : A) : M A := fun w => (w, inr a).
Definition throw {A} (e : exn) : M A := fun w => (w, inl e).
Definition bind {A B} (m : M A) (k : A -> M B) : M B :=
  fun w =>
    match m w with
    | (w', inl e) => (w', inl e)
    | (w', inr a) => k a w'
    end.
(** [try { body } catch (error) { handler(error) }] *)
Definition try_catch {A} (body : M A) (handler : exn -> M A) : M A :=
  fun w =>
    match body w with
    | (w', inl e) => handler e w'
    | (w', inr a) => (w', inr a)
    end.
(** A computation that may throw but makes no call. *)
Definition lift {A} (r : exn + A) : M A := fun w => (w, r).
Definition emit (e : Event) : M unit := fun w => (record e w, inr tt).
Definition read_aborted (s : AbortSignal) : M bool :=
  fun w => (w, inr (aborted w (signal_of s))).

(** ** The worker *)

Notation "x <- m ;; k" := (bind m (fun x => k))
  (at level 61, m at next level, right associativity).

Definition boilerplate : string :=
  String "010" "Work autonomously according to your specialty, using the tools available to you." ++
  " Do not ask for clarification." ++
  " Your other team members (and other teams) will collaborate with you with their own specialties." ++
  " You are chosen for a reason! You are one of the following team members: {team_members}.".

(** [createAgent(llm, tools, systemPrompt, maxIterations, flowObj)]; the
    first line records that the function was entered. *)
Definition createAgent (llm : option BaseChatModel) (tools : list Tool)
    (systemPrompt : string) (maxIterations : option string)
    (flowObj : option FlowObj) : M Agent :=
  _ <- emit (CreateAgentCalled llm tools systemPrompt maxIterations flowObj) ;;
  match tools with
  | _ :: _ =>
      let combinedPrompt := systemPrompt ++ boilerplate in
      prompt <-
        lift (ChatPromptTemplate_fromMessages
                [SystemMessage combinedPrompt; MessagesPlaceholder "messages";
                 MessagesPlaceholder "agent_scratchpad"]) ;;
      match llm with
      | None => throw (TypeError "Cannot read properties of undefined (reading 'bindTools')")
      | Some m =>
          match bindTools m with
          | None => throw (Error "This agent only compatible with function calling models.")
          | Some bind_tools =>
              modelWithTools <- lift (bind_tools tools) ;;
              agent <-
                lift (RunnableSequence_from
                        [AssignAgentScratchpad; Prompt prompt;
                         ModelWithTools modelWithTools;
                         ToolCallingAgentOutputParser]) ;;
              executor <-
                lift (AgentExecutor_fromAgentAndTools
                        {| executor_agent := agent;
                           executor_tools := tools;
                           executor_sessionId :=
                             match flowObj with Some f => flow_sessionId f | None => None end;
                           executor_chatId :=
                             match flowObj with Some f => flow_chatId f | None => None end;
                           executor_input :=
                             match flowObj with Some f => flow_input f | None => None end;
                           executor_verbose :=
                             match env_DEBUG with
                             | Some v => String.eqb v "true"
                             | None => false
                             end;
                           executor_maxIterations :=
                             match maxIterations with
                             | Some s => if JsString.truthy s then Some (parseFloat s) else None
                             | None => None
                             end |}) ;;
              ret (Executor executor)
          end
      end
  | [] =>
      let combinedPrompt := systemPrompt ++ boilerplate in
      prompt <-
        lift (ChatPromptTemplate_fromMessages
                [SystemMessage combinedPrompt; MessagesPlaceholder "messages"]) ;;
      conversationChain <-
        lift (RunnableSequence_from [Prompt prompt; Model llm; StringOutputParser]) ;;
      ret (Chain conversationChain)
  end.

(** The fields given to [new HumanMessage]; [fields_additional_kwargs] is
    [None] for [undefined]. *)
Record HumanMessageFields : Type := {
  fields_content : jsval;
  fields_name : string;
  fields_additional_kwargs : option (list (string * jsval))
}.

(** A message: its [additional_kwargs] is an object, possibly empty. *)
Record HumanMessage : Type := {
  content : jsval;
  message_name : string;
  additional_kwargs : list (string * jsval)
}.

(** [new HumanMessage(fields)] of LangChain: the message takes the content
    and the name, and the empty object in place of missing auxiliary
    fields. *)
Definition new_HumanMessage (fields : HumanMessageFields) : HumanMessage :=
  {| content := fields_content fields;
     message_name := fields_name fields;
     additional_kwargs :=
       match fields_additional_kwargs fields with
       | Some kwargs => kwargs
       | None => []
       end |}.

(** The state delta [{ messages: [...] }]. *)
Record StateDelta : Type := { messages : list HumanMessage }.

(** [result.key]: a string has no such member. *)
Definition result_member (result : InvokeResult) (key : string) : jsval :=
  match result with
  | ResString _ => JUndefined
  | ResObject props => Js.lookup props key
  end.

(** The object [additional_kwargs] after the two conditional assignments. *)
Definition collect_kwargs (result : InvokeResult) : list (string * jsval) :=
  (if Js.truthy (result_member result "usedTools")
   then [("usedTools", result_member result "usedTools")] else []) ++
  (if Js.truthy (result_member result "sourceDocuments")
   then [("sourceDocuments", result_member result "sourceDocuments")] else []).

(** [agentNode({ state, agent, name, abortControllerSignal }, config)];
    [abortControllerSignal] is [None] when [options.signal] was undefined. *)
Definition agentNode (state : ITeamState) (agent : Agent) (name : string)
    (abortControllerSignal : option AbortController)
    (config : RunnableConfig) : M StateDelta :=
  try_catch
    (controller <-
       lift (match abortControllerSignal with
             | Some c => inr c
             | None => inl (TypeError "Cannot read properties of undefined (reading 'signal')")
             end) ;;
     is_aborted <- read_aborted (signal controller) ;;
     if is_aborted : bool then throw (Error "Aborted!")
     else
       let input := {| input_state := state; input_signal := signal controller |} in
       _ <- emit (AgentInvoked agent input config) ;;
       result <- (fun w => (w, agent_invoke agent input config w)) ;;
       let kwargs := collect_kwargs result in
       ret {| messages :=
                [ new_HumanMessage
                    {| fields_content :=
                         match result with
                         | ResString text => JStr text
                         | ResObject _ => result_member result "output"
                         end;
                       fields_name := name;
                       fields_additional_kwargs :=
                         match kwargs with
                         | [] => None
                         | _ :: _ => Some kwargs
                         end |} ] |})
    (fun error => throw (Error "Aborted!")).

(** An entry of the [tools] input: one tool, or an array of tools. *)
Inductive ToolsEntry : Type :=
| OneTool (t : Tool)
| ToolArray (ts : list Tool).

(** lodash [flatten]: one level deep, [[]] for [undefined]. *)
Definition flatten (tools : option (list ToolsEntry)) : list Tool :=
  match tools with
  | None => []
  | Some entries =>
      flat_map (fun e => match e with OneTool t => [t] | ToolArray ts => ts end)
               entries
  end.

(** The members of the supervisor's node that the worker reads. *)
Record Supervisor : Type := {
  supervisor_name : nullable string;
  supervisor_llm : option BaseChatModel
}.

(** [nodeData.inputs] *)
Record Inputs : Type := {
  tools : option (list ToolsEntry);
  workerPrompt : string;
  workerName : option string;
  supervisor : option Supervisor;
  maxIterations : option string;
  model : option BaseChatModel;
  promptValues : jsval
}.

Record INodeData : Type := { inputs : option Inputs }.

Record Options : Type := {
  options_signal : option AbortController;
  sessionId : option string;
  chatId : option string
}.

(** The worker definition that [init] returns. *)
Record IMultiAgentNode : Type := {
  node : ITeamState -> RunnableConfig -> M StateDelta;
  name : string;
  label : string;
  type : string;
  node_workerPrompt : string;
  workerInputVariables : list string;
  parentSupervisorName : string
}.

(** [workerLabel.toLowerCase().replace(/\s/g, '_').trim()] *)
Definition normalize (workerLabel : string) : string :=
  JsString.trim (JsString.replace_whitespace_g (JsString.toLowerCase workerLabel)).

(** [String(exception)] *)
Definition exception_text (e : exn) : string :=
  match e with
  | Error message => "Error: " ++ message
  | TypeError message => "TypeError: " ++ message
  end.

(** [JSON.parse(value)]: the value is converted to a text first. *)
Definition JSON_parse_value (value : jsval) : string + jsval :=
  match Js.ToString value with
  | inl e => inl (exception_text e)
  | inr text => JSON_parse text
  end.

(** Lines 98-105: the value of [workerInputVariablesValues]. *)
Definition parsePromptValues (promptValuesStr : jsval) : exn + jsval :=
  if Js.truthy promptValuesStr then
    match
      (if Js.typeof_object promptValuesStr then inr promptValuesStr
       else JSON_parse_value promptValuesStr)
    with
    | inr values => inr values
    | inl exception =>
        inl (Error ("Invalid JSON in the Worker's Prompt Input Values: " ++ exception))
    end
  else inr (JObj []).

(** [names.every((element) => Object.keys(values).includes(element))]:
    [Object.keys] is evaluated once per element visited. *)
Fixpoint every_provided (values : jsval) (names : list string) : exn + bool :=
  match names with
  | [] => inr true
  | element :: rest =>
      match Js.Object_keys values with
      | inl e => inl e
      | inr keys =>
          if JsString.includes keys element then every_provided values rest
          else inr false
      end
  end.

(** [prompt.replaceAll(searchString, replaceValue)] with a value of type
    [any] as replacement: it holds no function, so it is converted to a text
    first, before any match is looked for. *)
Definition replaceAll_value (prompt searchString : string) (replaceValue : jsval)
  : exn + string :=
  match Js.ToString replaceValue with
  | inl e => inl e
  | inr text => inr (JsString.replaceAll prompt searchString text)
  end.

(** The [for ... of] loop of lines 116-118. *)
Fixpoint substitute (values : jsval) (names : list string) (prompt : string)
  : exn + string :=
  match names with
  | [] => inr prompt
  | inputVariable :: rest =>
      match Js.Get values inputVariable with
      | inl e => inl e
      | inr value =>
          match replaceAll_value prompt ("{" ++ inputVariable ++ "}") value with
          | inl e => inl e
          | inr workerPrompt => substitute values rest workerPrompt
          end
      end
  end.

(** [Worker_MultiAgents.init(nodeData, input, options)].  When
    [nodeData.inputs] is undefined every [nodeData.inputs?.x] is undefined
    and the name check throws. *)
Definition init (nodeData : INodeData) (input : string) (options : Options)
  : M IMultiAgentNode :=
  match inputs nodeData with
  | None => throw (Error "Worker name is required!")
  | Some i =>
      let tools := flatten (tools i) in
      let workerPrompt := workerPrompt i in
      match workerName i with
      | None => throw (Error "Worker name is required!")
      | Some workerLabel =>
          if negb (JsString.truthy workerLabel)
          then throw (Error "Worker name is required!")
          else
            let workerName := normalize workerLabel in
            workerInputVariablesValues <- lift (parsePromptValues (promptValues i)) ;;
            llm <-
              lift (match model i with
                    | Some m => inr (Some m)
                    | None =>
                        match supervisor i with
                        | Some s => inr (supervisor_llm s)
                        | None => inl (TypeError "Cannot read properties of undefined (reading 'llm')")
                        end
                    end) ;;
            let abortControllerSignal := options_signal options in
            let workerInputVariables := getInputVariables workerPrompt in
            provided <- lift (every_provided workerInputVariablesValues workerInputVariables) ;;
            if negb provided
            then throw (Error "Worker input variables values are not provided!")
            else
              workerPrompt <-
                lift (substitute workerInputVariablesValues workerInputVariables workerPrompt) ;;
              agent <-
                createAgent llm tools workerPrompt (maxIterations i)
                  (Some {| flow_sessionId := sessionId options;
                           flow_chatId := chatId options;
                           flow_input := Some input |}) ;;
              parent <-
                lift (match supervisor i with
                      | Some s =>
                          inr (match supervisor_name s with
                               | Has n => n
                               | IsNull | IsUndefined => "supervisor"
                               end)
                      | None => inl (TypeError "Cannot read properties of undefined (reading 'name')")
                      end) ;;
              ret {| node := fun state config =>
                               agentNode state agent workerName abortControllerSignal config;
                     name := workerName;
                     label := workerLabel;
                     type := "worker";
                     node_workerPrompt := workerPrompt;
                     workerInputVariables := workerInputVariables;
                     parentSupervisorName := parent |}
      end
  end.

(** [nodeData.inputs?.workerName] *)
Definition workerLabel_of (nodeData : INodeData) : option string :=
  match inputs nodeData with
  | Some i => workerName i
  | None => None
  end.

(** [model || supervisor.llm], once both operands are known. *)
Definition effective_model (i : Inputs) (s : Supervisor) : option BaseChatModel :=
  match model i with
  | Some m => Some m
  | None => supervisor_llm s
  end.

(** The result carries metadata under [key]: the member is set to a truthy
    value (every array and every object is one). *)
Definition carries (result : InvokeResult) (key : string) : Prop :=
  Js.truthy (result_member result key) = true.

(** The name normalization, unit by unit. *)
Definition normalizeChar (c : ascii) : ascii :=
  let l := JsString.lowerChar c in
  if JsString.isWhiteSpace l then "_"%char else l.

(** The calls recorded between the worlds [w] and [w']. *)
Definition new_calls (w w' : World) : list Event :=
  skipn (List.length (calls w)) (calls w').

(** The models that the recorded calls of [createAgent] were given. *)
Fixpoint models_passed (events : list Event) : list (option BaseChatModel) :=
  match events with
  | [] => []
  | CreateAgentCalled llm _ _ _ _ :: rest => llm :: models_passed rest
  | AgentInvoked _ _ _ :: rest => models_passed rest
  end.

(** The system prompts that the recorded calls of [createAgent] were given. *)
Fixpoint prompts_passed (events : list Event) : list string :=
  match events with
  | [] => []
  | CreateAgentCalled _ _ systemPrompt _ _ :: rest => systemPrompt :: prompts_passed rest
  | AgentInvoked _ _ _ :: rest => prompts_passed rest
  end.

(** The node configuration with another supervisor. *)
Definition with_supervisor (i : Inputs) (s : option Supervisor) : Inputs :=
  {| tools := tools i;
     workerPrompt := workerPrompt i;
     workerName := workerName i;
     supervisor := s;
     maxIterations := maxIterations i;
     model := model i;
     promptValues := promptValues i |}.

(** A prompt template written out as plain units and placeholders. *)
Inductive Piece : Type :=
| Text (c : ascii)
| Placeholder (name : string).

Fixpoint render (pieces : list Piece) : string :=
  match pieces with
  | [] => ""
  | Text c :: rest => String c (render rest)
  | Placeholder n :: rest => "{" ++ n ++ "}" ++ render rest
  end.

Fixpoint placeholders (pieces : list Piece) : list string :=
  match pieces with
  | [] => []
  | Text _ :: rest => placeholders rest
  | Placeholder n :: rest => n :: placeholders rest
  end.

(** A name without braces. *)
Definition brace_free (n : string) : bool :=
  negb (JsString.mem "{" n) && negb (JsString.mem "}" n).

(** Every opening brace of the template opens a placeholder whose name has
    no brace. *)
Fixpoint well_formed (pieces : list Piece) : bool :=
  match pieces with
  | [] => true
  | Text c :: rest => negb (Ascii.eqb c "{") && well_formed rest
  | Placeholder n :: rest => brace_free n && well_formed rest
  end.

(** A replacement text with no opening brace and no [$] pattern. *)
Definition plain (value : string) : bool :=
  negb (JsString.mem "{" value) && negb (JsString.mem "$" value).

(** The value of [n] converts to a text. *)
Definition converts (props : list (string * jsval)) (n : string) : bool :=
  match Js.ToString (Js.lookup props n) with
  | inr _ => true
  | inl _ => false
  end.

(** The text that replaces the placeholder of [n] (the empty text stands
    in where the value does not convert). *)
Definition value_text (props : list (string * jsval)) (n : string) : string :=
  match Js.ToString (Js.lookup props n) with
  | inr text => text
  | inl _ => ""
  end.

(** The template with the placeholders selected by [sel] replaced by their
    values, the others left as written. *)
Fixpoint fill_some (sel : string -> bool) (props : list (string * jsval))
         (pieces : list Piece) : string :=
  match pieces with
  | [] => ""
  | Text c :: rest => String c (fill_some sel props rest)
  | Placeholder n :: rest =>
      (if sel n then value_text props n else "{" ++ n ++ "}") ++
      fill_some sel props rest
  end.

(** The template with every placeholder replaced by its value. *)
Definition fill (props : list (string * jsval)) (pieces : list Piece) : string :=
  fill_some (fun _ => true) props pieces.

(** No placeholder of the names [names] is left in [prompt]. *)
Definition no_placeholder_left (names : list string) (prompt : string) : Prop :=
  forall n, In n names -> JsString.occurs ("{" ++ n ++ "}") prompt = false.

(** Plain text as pieces. *)
Fixpoint text (s : string) : list Piece :=
  match s with
  | "" => []
  | String c r => Text c :: text r
  end.

(** Sample configurations for the examples. *)
Definition sample_world (signal_set : bool) : World :=
  {| aborted := fun _ => signal_set; calls := [] |}.

Definition sample_controller : AbortController := {| controller_id := 0 |}.

Definition sample_options : Options :=
  {| options_signal := Some sample_controller;
     sessionId := Some "session";
     chatId := Some "chat" |}.

Definition sample_model (id : string)
    (bind_tools : option (list Tool -> exn + BoundModel)) : BaseChatModel :=
  {| llm_id := id; bindTools := bind_tools |}.

Definition sample_supervisor (n : nullable string) : Supervisor :=
  {| supervisor_name := n;
     supervisor_llm := Some (sample_model "supervisor model" None) |}.

Definition sample_inputs (workerLabel : option string) (prompt : string)
    (values : jsval) (own_model : option BaseChatModel)
    (n : nullable string) : Inputs :=
  {| tools := None;
     workerPrompt := prompt;
     workerName := workerLabel;
     supervisor := Some (sample_supervisor n);
     maxIterations := None;
     model := own_model;
     promptValues := values |}.

Definition sample_nodeData (workerLabel : option string) (prompt : string)
    (values : jsval) (own_model : option BaseChatModel)
    (n : nullable string) : INodeData :=
  {| inputs := Some (sample_inputs workerLabel prompt values own_model n) |}.

(** Every unit of [s] satisfies [p]. *)
Fixpoint all_units (p : ascii -> bool) (s : string) : bool :=
  match s with
  | "" => true
  | String c r => p c && all_units p r
  end.

(** The node configuration with other prompt input values. *)
Definition with_promptValues (i : Inputs) (values : jsval) : Inputs :=
  {| tools := tools i;
     workerPrompt := workerPrompt i;
     workerName := workerName i;
     supervisor := supervisor i;
     maxIterations := maxIterations i;
     model := model i;
     promptValues := values |}.

(** The chat prompt of a runnable sequence: its first [Prompt] step. *)
Fixpoint prompt_of (steps : RunnableSequence) : option ChatPromptTemplate :=
  match steps with
  | [] => None
  | Prompt p :: _ => Some p
  | _ :: rest => prompt_of rest
  end.

(** The chat prompt an agent was built on. *)
Definition agent_prompt (agent : Agent) : option ChatPromptTemplate :=
  match agent with
  | Executor executor => prompt_of (executor_agent executor)
  | Chain conversationChain => prompt_of conversationChain
  end.

(** What [agentNode] builds from a result. *)
Definition message_of (name : string) (result : InvokeResult) : HumanMessage :=
  new_HumanMessage
    {| fields_content :=
         match result with
         | ResString text => JStr text
         | ResObject _ => result_member result "output"
         end;
       fields_name := name;
       fields_additional_kwargs :=
         match collect_kwargs result with
         | [] => None
         | _ :: _ => Some (collect_kwargs result)
         end |}.


(** Stand-ins for the checks of the agent library in the examples.  The
    first follows the brace rules of LangChain's f-string templates: a
    doubled brace is text, an opening brace needs a closing one, and a
    closing brace alone is refused.  The second refuses a sequence with an
    undefined model. *)
Fixpoint template_error (inside skip : bool) (template : string) : option exn :=
  match template with
  | "" => if inside then Some (Error "Unclosed '{' in template.") else None
  | String c r =>
      if skip then template_error inside false r
      else if inside then
        template_error (negb (Ascii.eqb c "}")) false r
      else if Ascii.eqb c "{" then
        match r with
        | String d _ =>
            if Ascii.eqb d "{" then template_error false true r
            else template_error true false r
        | "" => template_error true false r
        end
      else if Ascii.eqb c "}" then
        match r with
        | String d _ =>
            if Ascii.eqb d "}" then template_error false true r
            else Some (Error "Single '}' in template.")
        | "" => Some (Error "Single '}' in template.")
        end
      else template_error false false r
  end.

Fixpoint prompt_error_sample (messages : list PromptMessage) : option exn :=
  match messages with
  | [] => None
  | SystemMessage template :: rest =>
      match template_error false false template with
      | Some e => Some e
      | None => prompt_error_sample rest
      end
  | MessagesPlaceholder _ :: rest => prompt_error_sample rest
  end.

Definition sequence_error_sample (steps : list Runnable) : option exn :=
  if existsb (fun step => match step with Model None => true | _ => false end) steps
  then Some (Error "Expected a Runnable, function or object.")
  else None.


(** ** Properties *)

(** *** Name normalization *)

Lemma map_map (f g : ascii -> ascii) (s : string) :
  JsString.map f (JsString.map g s) = JsString.map (fun c => f (g c)) s.
Proof. induction s as [|c r IH]; simpl; [reflexivity | now rewrite IH]. Qed.

Lemma map_ext (f g : ascii -> ascii) (s : string) :
  (forall c, f c = g c) -> JsString.map f s = JsString.map g s.
Proof. intros E; induction s as [|c r IH]; simpl; [reflexivity | now rewrite E, IH]. Qed.

Lemma normalizeChar_not_space (c : ascii) :
  JsString.isWhiteSpace (normalizeChar c) = false.
Proof. destruct c as [[] [] [] [] [] [] [] []]; vm_compute; reflexivity. Qed.

Lemma normalizeChar_idem (c : ascii) :
  normalizeChar (normalizeChar c) = normalizeChar c.
Proof. destruct c as [[] [] [] [] [] [] [] []]; vm_compute; reflexivity. Qed.

(** A text without white space is left alone by [trim]. *)
Lemma trim_no_space (f : ascii -> ascii) (s : string) :
  (forall c, JsString.isWhiteSpace (f c) = false) ->
  JsString.trim (JsString.map f s) = JsString.map f s.
Proof.
  intros Hf. unfold JsString.trim.
  assert (Hs : JsString.trimStart (JsString.map f s) = JsString.map f s).
  { destruct s as [|c r]; simpl; [reflexivity | now rewrite Hf]. }
  rewrite Hs. clear Hs. induction s as [|c r IH]; simpl; [reflexivity|].
  rewrite IH. destruct (JsString.map f r); [now rewrite Hf | reflexivity].
Qed.

Lemma normalize_map (s : string) : normalize s = JsString.map normalizeChar s.
Proof.
  unfold normalize, JsString.replace_whitespace_g, JsString.toLowerCase.
  rewrite map_map. apply trim_no_space. intros c.
  apply (normalizeChar_not_space c).
Qed.

(** On the strings of units below U+0100 the normalization is idempotent. *)
Lemma normalize_idempotent :
  (forall s : string, normalize (normalize s) = normalize s) /\
  normalize "Research Assistant" = "research_assistant".
Proof.
  split; [|reflexivity].
  intros s. rewrite !normalize_map, map_map.
  apply map_ext, normalizeChar_idem.
Qed.

(** *** Name normalization on any string *)

Lemma units_replaced_no_space (s : list N) :
  forallb (fun u => negb (JsUnits.isWhiteSpace u))
          (JsUnits.replace_whitespace_g s) = true.
Proof.
  induction s as [|u r IH]; simpl; [reflexivity|].
  rewrite IH, andb_true_r.
  destruct (JsUnits.isWhiteSpace u) eqn:E; [reflexivity | now rewrite E].
Qed.

Lemma units_trim_no_space (s : list N) :
  forallb (fun u => negb (JsUnits.isWhiteSpace u)) s = true ->
  JsUnits.trim s = s.
Proof.
  intros H. unfold JsUnits.trim.
  assert (Hs : JsUnits.trimStart s = s).
  { destruct s as [|u r]; [reflexivity|]. simpl in *.
    apply andb_true_iff in H as [Hu _]. apply negb_true_iff in Hu.
    now rewrite Hu. }
  rewrite Hs. clear Hs. induction s as [|u r IH]; [reflexivity|].
  simpl in H. apply andb_true_iff in H as [Hu Hr]. apply negb_true_iff in Hu.
  simpl. rewrite (IH Hr). destruct r; [now rewrite Hu | reflexivity].
Qed.

Lemma units_replace_no_space (s : list N) :
  forallb (fun u => negb (JsUnits.isWhiteSpace u)) s = true ->
  JsUnits.replace_whitespace_g s = s.
Proof.
  induction s as [|u r IH]; [reflexivity|]. simpl. intros H.
  apply andb_true_iff in H as [Hu Hr]. apply negb_true_iff in Hu.
  now rewrite Hu, (IH Hr).
Qed.

Lemma units_isWhiteSpace_ascii (c : ascii) :
  JsUnits.isWhiteSpace (N_of_ascii c) = JsString.isWhiteSpace c.
Proof. destruct c as [[] [] [] [] [] [] [] []]; vm_compute; reflexivity. Qed.

Lemma units_of_replaced (s : string) :
  JsUnits.replace_whitespace_g (JsUnits.of_string s) =
  JsUnits.of_string (JsString.replace_whitespace_g s).
Proof.
  induction s as [|c r IH]; [reflexivity|].
  cbn [JsUnits.of_string JsUnits.replace_whitespace_g List.map].
  unfold JsUnits.replace_whitespace_g in IH. rewrite IH.
  rewrite units_isWhiteSpace_ascii.
  unfold JsString.replace_whitespace_g. cbn [JsString.map JsUnits.of_string].
  now destruct (JsString.isWhiteSpace c).
Qed.

Lemma units_of_lower (s : string) :
  JsUnits.toLowerCase_sample (JsUnits.of_string s) =
  JsUnits.of_string (JsString.toLowerCase s).
Proof.
  induction s as [|c r IH]; [reflexivity|].
  unfold JsUnits.toLowerCase_sample, JsString.toLowerCase in *.
  cbn [JsUnits.of_string List.map JsString.map]. rewrite IH. f_equal.
  destruct c as [[] [] [] [] [] [] [] []]; vm_compute; reflexivity.
Qed.

Lemma lower_unit_idempotent (u : N) :
  JsUnits.lower_unit (JsUnits.lower_unit u) = JsUnits.lower_unit u.
Proof.
  unfold JsUnits.lower_unit.
  destruct ((65 <=? u) && (u <=? 90) ||
            (192 <=? u) && (u <=? 222) && negb (u =? 215))%N eqn:E;
    [|now rewrite E].
  assert (K : ((65 <=? u + 32) && (u + 32 <=? 90) ||
               (192 <=? u + 32) && (u + 32 <=? 222) && negb (u + 32 =? 215))%N
              = false); [|now rewrite K].
  apply orb_true_iff in E. apply orb_false_iff.
  destruct E as [E|E].
  - apply andb_true_iff in E as [E1 E2].
    apply N.leb_le in E1, E2. split.
    + apply andb_false_iff. right. apply N.leb_gt. lia.
    + apply andb_false_iff. left. apply andb_false_iff. left.
      apply N.leb_gt. lia.
  - apply andb_true_iff in E as [E E3]. apply andb_true_iff in E as [E1 E2].
    apply N.leb_le in E1, E2. split.
    + apply andb_false_iff. right. apply N.leb_gt. lia.
    + apply andb_false_iff. left. apply andb_false_iff. right.
      apply N.leb_gt. lia.
Qed.

Lemma toLowerCase_sample_idempotent (s : list N) :
  JsUnits.toLowerCase_sample (JsUnits.toLowerCase_sample s) =
  JsUnits.toLowerCase_sample s.
Proof.
  unfold JsUnits.toLowerCase_sample. rewrite List.map_map.
  apply List.map_ext. apply lower_unit_idempotent.
Qed.

Lemma toLowerCase_sample_underscore (s : list N) :
  JsUnits.toLowerCase_sample s = s ->
  JsUnits.toLowerCase_sample (JsUnits.replace_whitespace_g s) =
  JsUnits.replace_whitespace_g s.
Proof.
  unfold JsUnits.toLowerCase_sample, JsUnits.replace_whitespace_g.
  induction s as [|u r IH]; [reflexivity|]. simpl. intros H.
  injection H as Hu Hr. rewrite (IH Hr). f_equal.
  destruct (JsUnits.isWhiteSpace u); [reflexivity | exact Hu].
Qed.

Section Unicode.

(** [String.prototype.toLowerCase] of the engine, with three facts of the
    Unicode case tables: a lower-cased string is not changed by lower-casing
    it again; neither is it after its white space was turned into
    underscores (the one rule that looks at neighbours, the final sigma,
    concerns a capital letter); and below U+0100 the lower case is the one
    of the table of this file. *)
Variable toLowerCase : list N -> list N.

Hypothesis toLowerCase_idempotent :
  forall s, toLowerCase (toLowerCase s) = toLowerCase s.

Hypothesis toLowerCase_underscore :
  forall s, toLowerCase s = s ->
            toLowerCase (JsUnits.replace_whitespace_g s) =
            JsUnits.replace_whitespace_g s.

Hypothesis toLowerCase_latin1 :
  forall s : string,
    toLowerCase (JsUnits.of_string s) = JsUnits.of_string (JsString.toLowerCase s).

(** The [trim] finds nothing to remove. *)
Lemma normalize_units_replaced (s : list N) :
  normalize_units toLowerCase s = JsUnits.replace_whitespace_g (toLowerCase s).
Proof.
  unfold normalize_units. apply units_trim_no_space, units_replaced_no_space.
Qed.

(** On the strings below U+0100 this is the normalization of [init]. *)
Lemma normalize_units_of_string (s : string) :
  normalize_units toLowerCase (JsUnits.of_string s) =
  JsUnits.of_string (normalize s).
Proof.
  rewrite normalize_units_replaced, toLowerCase_latin1, units_of_replaced.
  f_equal. rewrite normalize_map.
  unfold JsString.replace_whitespace_g, JsString.toLowerCase.
  now rewrite map_map.
Qed.

(** C6. Worker name normalization (lower-casing, white space to
    underscore, trimming) is idempotent on every string, whatever its code
    units, for a [toLowerCase] with the three facts above: normalizing a
    normalized name returns it unchanged; and "Research Assistant"
    normalizes to "research_assistant". *)
Theorem normalize_units_idempotent :
  (forall s : list N,
     normalize_units toLowerCase (normalize_units toLowerCase s) =
     normalize_units toLowerCase s) /\
  normalize_units toLowerCase (JsUnits.of_string "Research Assistant") =
  JsUnits.of_string "research_assistant".
Proof.
  split.
  - intros s. rewrite !normalize_units_replaced.
    rewrite (toLowerCase_underscore (toLowerCase s) (toLowerCase_idempotent s)).
    apply units_replace_no_space, units_replaced_no_space.
  - rewrite normalize_units_of_string. reflexivity.
Qed.

End Unicode.

(** *** Construction: the worker name *)

(** C7. When the worker name is absent or empty, [init] fails with the
    error 'Worker name is required!' and leaves the world as it was: in
    particular no call of [createAgent] is recorded. *)
Theorem init_requires_name (nodeData : INodeData) (input : string)
    (options : Options) (w : World) :
  workerLabel_of nodeData = None \/ workerLabel_of nodeData = Some "" ->
  init nodeData input options w = (w, inl (Error "Worker name is required!")) /\
  calls (fst (init nodeData input options w)) = calls w.
Proof.
  unfold workerLabel_of, init. intros H.
  destruct (inputs nodeData) as [i|]; [|split; reflexivity].
  destruct H as [H|H]; rewrite H; split; reflexivity.
Qed.

(** *** Construction: the effective model *)

Lemma new_calls_same (w : World) : new_calls w w = [].
Proof. unfold new_calls. apply skipn_all. Qed.

Lemma new_calls_record (w : World) (e : Event) : new_calls w (record e w) = [e].
Proof.
  unfold new_calls, record; simpl.
  rewrite skipn_app, skipn_all, Nat.sub_diag. reflexivity.
Qed.

(** [createAgent] records its call first, whatever it then returns. *)
Lemma createAgent_records (llm : option BaseChatModel) (tools : list Tool)
    (systemPrompt : string) (maxIterations : option string)
    (flowObj : option FlowObj) (w : World) :
  fst (createAgent llm tools systemPrompt maxIterations flowObj w) =
  record (CreateAgentCalled llm tools systemPrompt maxIterations flowObj) w.
Proof.
  unfold createAgent, bind, emit, lift, throw, ret,
    ChatPromptTemplate_fromMessages, RunnableSequence_from,
    AgentExecutor_fromAgentAndTools.
  destruct tools as [|t ts]; simpl.
  - destruct (prompt_error _); simpl; [reflexivity|].
    destruct (sequence_error _); reflexivity.
  - destruct (prompt_error _); simpl; [reflexivity|].
    destruct llm as [m|]; simpl; [|reflexivity].
    destruct (bindTools m) as [bind_tools|]; simpl; [|reflexivity].
    destruct (bind_tools (t :: ts)); simpl; [reflexivity|].
    destruct (sequence_error _); simpl; [reflexivity|].
    destruct (executor_error _); reflexivity.
Qed.

Local Arguments createAgent : simpl never.

Ltac step_init :=
  match goal with
  | |- context [createAgent ?a ?b ?c ?d ?e ?w] =>
      let H := fresh "Hrec" in
      pose proof (createAgent_records a b c d e w) as H;
      destruct (createAgent a b c d e w) as [? [?|?]] eqn:?;
      simpl in H; subst
  | |- context [match ?x with _ => _ end] =>
      match type of x with
      | World => fail 1
      | _ => destruct x eqn:?
      end
  | |- context [if ?x then _ else _] => destruct x eqn:?
  end.

Ltac run_init :=
  unfold init, bind, lift, throw, ret; simpl;
  repeat (step_init; simpl).

(** Whatever [init] does, it records nothing or exactly one call of
    [createAgent]. *)
Lemma init_calls (nodeData : INodeData) (input : string) (options : Options)
    (w : World) :
  new_calls w (fst (init nodeData input options w)) = [] \/
  exists llm tools systemPrompt maxIterations flowObj,
    new_calls w (fst (init nodeData input options w)) =
    [CreateAgentCalled llm tools systemPrompt maxIterations flowObj].
Proof.
  run_init; rewrite ?new_calls_same, ?new_calls_record; eauto 8.
Qed.

(** C8. The model given to agent construction is the node's own model when
    one is set, and otherwise the supervisor's model; a run that returns a
    worker has made that call; when the node's model is set, the
    supervisor's model plays no part in the run; and a named worker whose
    values parse and whose variables are provided and substituted does
    reach agent construction, with exactly that model. *)
Theorem init_effective_model (nodeData : INodeData) (input : string)
    (options : Options) (w : World) (i : Inputs) :
  inputs nodeData = Some i ->
  (forall m, model i = Some m ->
     Forall (fun llm => llm = Some m)
       (models_passed (new_calls w (fst (init nodeData input options w))))) /\
  (forall s, model i = None -> supervisor i = Some s ->
     Forall (fun llm => llm = supervisor_llm s)
       (models_passed (new_calls w (fst (init nodeData input options w))))) /\
  (forall worker, snd (init nodeData input options w) = inr worker ->
     exists llm,
       models_passed (new_calls w (fst (init nodeData input options w))) = [llm]) /\
  (forall m s llm', model i = Some m -> supervisor i = Some s ->
     init {| inputs := Some (with_supervisor i
               (Some {| supervisor_name := supervisor_name s;
                        supervisor_llm := llm' |})) |} input options w =
     init nodeData input options w) /\
  (forall workerLabel values prompt,
     workerName i = Some workerLabel ->
     JsString.truthy workerLabel = true ->
     parsePromptValues (promptValues i) = inr values ->
     every_provided values (getInputVariables (workerPrompt i)) = inr true ->
     substitute values (getInputVariables (workerPrompt i)) (workerPrompt i) =
       inr prompt ->
     (forall m, model i = Some m ->
        models_passed (new_calls w (fst (init nodeData input options w))) =
        [Some m]) /\
     (forall s, model i = None -> supervisor i = Some s ->
        models_passed (new_calls w (fst (init nodeData input options w))) =
        [supervisor_llm s])).
Proof.
  intros Hi. split; [|split; [|split; [|split]]].
  - intros m Hm. unfold init. rewrite Hi, Hm.
    unfold bind, lift, throw, ret; simpl.
    repeat (step_init; simpl);
      rewrite ?new_calls_same, ?new_calls_record; simpl; auto.
  - intros s Hm Hs. unfold init. rewrite Hi, Hm, Hs.
    unfold bind, lift, throw, ret; simpl.
    repeat (step_init; simpl);
      rewrite ?new_calls_same, ?new_calls_record; simpl; auto.
  - intros worker. unfold init. rewrite Hi.
    unfold bind, lift, throw, ret; simpl.
    repeat (step_init; simpl); try discriminate;
      rewrite ?new_calls_record; simpl; eauto.
  - intros m s llm' Hm Hs. unfold init. rewrite Hi. simpl. rewrite Hm, Hs.
    reflexivity.
  - intros workerLabel values prompt Hn Ht Hp He Hsub.
    unfold init. rewrite Hi, Hn, Ht, Hp. unfold bind, lift, throw, ret. simpl.
    split.
    + intros m Hm. rewrite Hm. simpl. rewrite He. simpl. rewrite Hsub. simpl.
      step_init; simpl; try step_init; simpl;
        rewrite new_calls_record; reflexivity.
    + intros s Hm Hs. rewrite Hm, Hs. simpl. rewrite He. simpl.
      rewrite Hsub. simpl.
      step_init; simpl; rewrite new_calls_record; reflexivity.
Qed.

(** C10. The parent supervisor name of the worker that [init] returns is
    the supervisor's name when that name is present, and the text
    'supervisor' when it is null or undefined. *)
Theorem init_parentSupervisorName (nodeData : INodeData) (input : string)
    (options : Options) (w : World) (worker : IMultiAgentNode) :
  snd (init nodeData input options w) = inr worker ->
  exists i s,
    inputs nodeData = Some i /\ supervisor i = Some s /\
    (forall n, supervisor_name s = Has n -> parentSupervisorName worker = n) /\
    (supervisor_name s = IsNull \/ supervisor_name s = IsUndefined ->
     parentSupervisorName worker = "supervisor").
Proof.
  unfold init. destruct (inputs nodeData) as [i|]; [|discriminate].
  destruct (supervisor i) as [s|] eqn:Hs.
  - intros H. exists i, s. split; [reflexivity|]. split; [assumption|].
    revert H. unfold bind, lift, throw, ret; simpl.
    repeat (step_init; simpl); try discriminate;
      intros H; injection H as <-; simpl; split;
      try (intros n' Hn; congruence);
      try (intros [Hn|Hn]; congruence).
  - unfold bind, lift, throw, ret; simpl.
    repeat (step_init; simpl); discriminate.
Qed.

(** *** The agent factory *)

(** C5 (as the code has it). With a non-empty tool list, [createAgent]
    first has the library build the chat prompt: when the library refuses
    it, [createAgent] fails with the library's error, whatever the model.
    When the prompt is built, [createAgent] fails with the error 'This agent
    only compatible with function calling models.' for a model without
    [bindTools]; and for a model with [bindTools] it returns a tool-loop
    executor over the bound model and the given tools, provided the library
    binds the tools and builds the sequence and the executor. *)
Theorem createAgent_requires_bindTools (m : BaseChatModel) (tools : list Tool)
    (systemPrompt : string) (maxIterations : option string)
    (flowObj : option FlowObj) (w : World) :
  tools <> [] ->
  let messages :=
    [SystemMessage (systemPrompt ++ boilerplate);
     MessagesPlaceholder "messages";
     MessagesPlaceholder "agent_scratchpad"] in
  (forall e llm,
     prompt_error messages = Some e ->
     snd (createAgent llm tools systemPrompt maxIterations flowObj w) = inl e) /\
  (prompt_error messages = None ->
   bindTools m = None ->
   snd (createAgent (Some m) tools systemPrompt maxIterations flowObj w) =
   inl (Error "This agent only compatible with function calling models.")) /\
  (forall bind_tools modelWithTools,
     prompt_error messages = None ->
     bindTools m = Some bind_tools ->
     bind_tools tools = inr modelWithTools ->
     sequence_error
       [AssignAgentScratchpad; Prompt messages; ModelWithTools modelWithTools;
        ToolCallingAgentOutputParser] = None ->
     (forall fields, executor_tools fields = tools -> executor_error fields = None) ->
     exists executor,
       snd (createAgent (Some m) tools systemPrompt maxIterations flowObj w) =
       inr (Executor executor) /\
       executor_tools executor = tools /\
       executor_agent executor =
         [AssignAgentScratchpad; Prompt messages; ModelWithTools modelWithTools;
          ToolCallingAgentOutputParser]).
Proof.
  intros Hne messages. destruct tools as [|t ts]; [contradiction|].
  unfold createAgent, bind, emit, lift, throw, ret,
    ChatPromptTemplate_fromMessages, RunnableSequence_from,
    AgentExecutor_fromAgentAndTools.
  fold messages. simpl. split; [|split].
  - intros e llm ->. reflexivity.
  - intros -> ->. reflexivity.
  - intros bind_tools modelWithTools -> -> -> -> Hex. simpl.
    rewrite Hex by reflexivity. simpl. eexists. repeat split.
Qed.

(** *** The invocation wrapper *)

(** C2. Every failure of [agentNode] is the error 'Aborted!': a missing
    controller, a signal already set, and any error [e] thrown by the
    agent's invoke all end in that one error, in which [e] does not
    appear. *)
Theorem agentNode_fails_with_aborted (state : ITeamState) (agent : Agent)
    (name : string) (abortControllerSignal : option AbortController)
    (config : RunnableConfig) (w : World) :
  (forall e,
     snd (agentNode state agent name abortControllerSignal config w) = inl e ->
     e = Error "Aborted!") /\
  (forall c e,
     abortControllerSignal = Some c ->
     agent_invoke agent
       {| input_state := state; input_signal := signal c |} config
       (record (AgentInvoked agent
                  {| input_state := state; input_signal := signal c |} config) w)
     = inl e ->
     snd (agentNode state agent name abortControllerSignal config w) =
     inl (Error "Aborted!")).
Proof.
  unfold agentNode, try_catch, bind, lift, read_aborted, emit, throw, ret. split.
  - intros e. destruct abortControllerSignal as [c|]; simpl.
    + destruct (aborted w (controller_id c)); simpl.
      * intros H. now inversion H.
      * destruct (agent_invoke _ _ _ _); simpl; intros H; now inversion H.
    + intros H. now inversion H.
  - intros c e -> He. simpl in *.
    destruct (aborted w (controller_id c)); simpl; [reflexivity|].
    rewrite He. reflexivity.
Qed.

(** C3. When the signal is already set on entry, [agentNode] fails with
    'Aborted!' and the world is as before: the agent's invoke is not
    called, and no message is produced. *)
Theorem agentNode_aborted_on_entry (state : ITeamState) (agent : Agent)
    (name : string) (c : AbortController) (config : RunnableConfig)
    (w : World) :
  aborted w (controller_id c) = true ->
  agentNode state agent name (Some c) config w = (w, inl (Error "Aborted!")) /\
  new_calls w (fst (agentNode state agent name (Some c) config w)) = [].
Proof.
  intros Hab.
  assert (E : agentNode state agent name (Some c) config w =
              (w, inl (Error "Aborted!"))).
  { unfold agentNode, try_catch, bind, lift, read_aborted, throw; simpl.
    rewrite Hab. reflexivity. }
  rewrite E. split; [reflexivity | apply new_calls_same].
Qed.


(** The step function of the worker that [init] returns is [agentNode]
    under the normalized worker name. *)
Lemma init_node (nodeData : INodeData) (input : string) (options : Options)
    (w : World) (worker : IMultiAgentNode) :
  snd (init nodeData input options w) = inr worker ->
  exists i workerLabel agent,
    inputs nodeData = Some i /\ workerName i = Some workerLabel /\
    name worker = normalize workerLabel /\
    node worker =
      (fun state config =>
         agentNode state agent (normalize workerLabel)
           (options_signal options) config).
Proof.
  unfold init. destruct (inputs nodeData) as [i|]; [|discriminate].
  destruct (workerName i) as [workerLabel|] eqn:Hn; [|discriminate].
  intros H. exists i, workerLabel. revert H.
  unfold bind, lift, throw, ret; simpl.
  repeat (step_init; simpl); try discriminate;
    intros [= <-]; simpl; eexists; repeat split; assumption.
Qed.

(** *** Substitution of the prompt variables *)

Local Arguments Ascii.eqb : simpl never.

Lemma mem_app (c : ascii) (a b : string) :
  JsString.mem c (a ++ b) = JsString.mem c a || JsString.mem c b.
Proof.
  induction a as [|x a IH]; simpl; [reflexivity|].
  rewrite IH. apply orb_assoc.
Qed.

Lemma append_assoc (a b c : string) : (a ++ b) ++ c = a ++ (b ++ c).
Proof. induction a as [|x a IH]; simpl; [reflexivity | now rewrite IH]. Qed.

Lemma append_empty (a : string) : a ++ "" = a.
Proof. induction a as [|x a IH]; simpl; [reflexivity | now rewrite IH]. Qed.

Lemma length_append (a b : string) :
  String.length (a ++ b) = String.length a + String.length b.
Proof. induction a as [|x a IH]; simpl; [reflexivity | now rewrite IH]. Qed.

Lemma startsWith_append (p s : string) : JsString.startsWith p (p ++ s) = true.
Proof.
  induction p as [|x p IH]; simpl; [reflexivity|].
  now rewrite Ascii.eqb_refl, IH.
Qed.

(** A replacement text without [$] is inserted as it is. *)
Lemma GetSubstitution_plain (matched before after value : string) :
  JsString.mem "$" value = false ->
  JsString.GetSubstitution matched before after value = value.
Proof.
  induction value as [|c r IH]; simpl; [reflexivity|].
  intros H. apply orb_false_iff in H as [Hc Hr].
  rewrite Ascii.eqb_sym in Hc. rewrite Hc, (IH Hr). reflexivity.
Qed.

Section Scan.

Variables name value : string.
#[local, warnings="-notation-for-abbreviation"] Notation pattern := ("{" ++ name ++ "}").

(** The scan copies a stretch without opening brace. *)
Lemma scan_copy (u rest before : string) :
  JsString.mem "{" u = false ->
  JsString.replaceAll_scan pattern value before (u ++ rest) 0 =
  u ++ JsString.replaceAll_scan pattern value (before ++ u) rest 0.
Proof.
  revert before. induction u as [|c u IH]; intros before H.
  - simpl. now rewrite (append_empty before).
  - simpl in H. apply orb_false_iff in H as [Hc Hu].
    simpl. rewrite Hc. simpl. rewrite (IH _ Hu).
    now rewrite append_assoc.
Qed.

(** The scan passes over the units of a match. *)
Lemma scan_skip (u rest before : string) :
  JsString.replaceAll_scan pattern value before (u ++ rest) (String.length u) =
  JsString.replaceAll_scan pattern value (before ++ u) rest 0.
Proof.
  revert before. induction u as [|c u IH]; intros before.
  - simpl. now rewrite (append_empty before).
  - simpl. rewrite IH. now rewrite append_assoc.
Qed.

(** Two names without closing brace that are followed by one and match
    unit by unit are the same name. *)
Lemma startsWith_name (n m rest : string) :
  JsString.mem "}" n = false -> JsString.mem "}" m = false ->
  JsString.startsWith (n ++ "}") (m ++ "}" ++ rest) = true -> n = m.
Proof.
  revert m. induction n as [|b n IH]; intros [|a m] Hn Hm; simpl in *.
  - reflexivity.
  - apply orb_false_iff in Hm as [Ha _]. rewrite Ha. discriminate.
  - apply orb_false_iff in Hn as [Hb _].
    rewrite Ascii.eqb_sym in Hb. rewrite Hb. discriminate.
  - apply orb_false_iff in Hn as [_ Hn]. apply orb_false_iff in Hm as [_ Hm].
    intros H. apply andb_true_iff in H as [Hab H].
    apply Ascii.eqb_eq in Hab. subst. f_equal. now apply IH.
Qed.

Lemma scan_no_match (c : ascii) (r before : string) :
  JsString.startsWith pattern (String c r) = false ->
  JsString.replaceAll_scan pattern value before (String c r) 0 =
  String c (JsString.replaceAll_scan pattern value (before ++ String c "") r 0).
Proof.
  intros H. change (JsString.replaceAll_scan pattern value before (String c r) 0)
    with (if JsString.startsWith pattern (String c r)
          then JsString.GetSubstitution pattern before
                 (JsString.drop (String.length pattern) (String c r)) value ++
               JsString.replaceAll_scan pattern value (before ++ String c "") r
                 (String.length (name ++ "}"))
          else String c (JsString.replaceAll_scan pattern value
                           (before ++ String c "") r 0)).
  now rewrite H.
Qed.

(** At an occurrence of the pattern the scan writes the replacement and
    goes on behind the occurrence. *)
Lemma scan_match (rest before : string) :
  JsString.mem "$" value = false ->
  JsString.replaceAll_scan pattern value before (pattern ++ rest) 0 =
  value ++ JsString.replaceAll_scan pattern value (before ++ pattern) rest 0.
Proof.
  intros Hv.
  change (pattern ++ rest) with (String "{" ((name ++ "}") ++ rest)).
  change (JsString.replaceAll_scan pattern value before
            (String "{" ((name ++ "}") ++ rest)) 0)
    with (if JsString.startsWith pattern (String "{" ((name ++ "}") ++ rest))
          then JsString.GetSubstitution pattern before
                 (JsString.drop (String.length pattern)
                    (String "{" ((name ++ "}") ++ rest))) value ++
               JsString.replaceAll_scan pattern value (before ++ String "{" "")
                 ((name ++ "}") ++ rest) (String.length (name ++ "}"))
          else String "{" (JsString.replaceAll_scan pattern value
                             (before ++ String "{" "") ((name ++ "}") ++ rest) 0)).
  change (String "{" ((name ++ "}") ++ rest)) with (pattern ++ rest).
  rewrite startsWith_append, (GetSubstitution_plain _ _ _ _ Hv), scan_skip.
  now rewrite append_assoc.
Qed.

Variable props : list (string * jsval).
Hypothesis name_brace_free : brace_free name = true.
Hypothesis value_of_name : value = value_text props name.

(** One [replaceAll] on a well-formed template: the placeholders of [name]
    are replaced, everything else is copied. *)
Lemma scan_fill (sel : string -> bool) (pieces : list Piece) (before : string) :
  well_formed pieces = true ->
  forallb (fun m => plain (value_text props m)) (placeholders pieces) = true ->
  JsString.replaceAll_scan pattern value before (fill_some sel props pieces) 0 =
  fill_some (fun m => sel m || String.eqb m name) props pieces.
Proof.
  unfold brace_free in name_brace_free.
  apply andb_true_iff in name_brace_free as [_ Hclose].
  apply negb_true_iff in Hclose.
  revert before. induction pieces as [|[c|m] rest IH]; intros before Hwf Hplain.
  - reflexivity.
  - simpl in Hwf. apply andb_true_iff in Hwf as [Hc Hwf].
    apply negb_true_iff in Hc. cbn [fill_some].
    rewrite scan_no_match.
    + now rewrite IH.
    + simpl. rewrite Ascii.eqb_sym, Hc. reflexivity.
  - simpl in Hwf, Hplain.
    apply andb_true_iff in Hwf as [Hm Hwf].
    apply andb_true_iff in Hplain as [Hpm Hplain].
    unfold brace_free in Hm. apply andb_true_iff in Hm as [Hmo Hmc].
    apply negb_true_iff in Hmo, Hmc.
    unfold plain in Hpm. apply andb_true_iff in Hpm as [Hvo Hvd].
    apply negb_true_iff in Hvo, Hvd.
    cbn [fill_some]. destruct (sel m); cbn [orb].
    + rewrite scan_copy by assumption. now rewrite IH.
    + destruct (String.eqb_spec m name) as [->|Hne].
      * change ("{" ++ name ++ "}") with pattern.
        rewrite scan_match by (rewrite value_of_name; assumption).
        rewrite IH by assumption. now rewrite value_of_name.
      * change (("{" ++ m ++ "}") ++ fill_some sel props rest)
          with (String "{" ((m ++ "}") ++ fill_some sel props rest)).
        rewrite scan_no_match.
        -- rewrite scan_copy.
           ++ now rewrite IH by assumption.
           ++ rewrite mem_app, Hmo. reflexivity.
        -- simpl.
           destruct (JsString.startsWith (name ++ "}")
                       ((m ++ "}") ++ fill_some sel props rest)) eqn:E;
             [|reflexivity].
           exfalso. apply Hne. symmetry.
           rewrite append_assoc in E.
           now apply (startsWith_name name m (fill_some sel props rest)).
Qed.

End Scan.

Lemma fill_some_ext (sel1 sel2 : string -> bool)
    (props : list (string * jsval)) (pieces : list Piece) :
  (forall m, In m (placeholders pieces) -> sel1 m = sel2 m) ->
  fill_some sel1 props pieces = fill_some sel2 props pieces.
Proof.
  induction pieces as [|[c|m] rest IH]; intros H; simpl.
  - reflexivity.
  - now rewrite IH.
  - rewrite (H m) by (left; reflexivity).
    rewrite IH; [reflexivity|]. intros k Hk. apply H. now right.
Qed.

Lemma fill_some_none (props : list (string * jsval)) (pieces : list Piece) :
  fill_some (fun _ => false) props pieces = render pieces.
Proof.
  induction pieces as [|[c|m] rest IH]; simpl; [reflexivity| |];
    rewrite IH; [reflexivity|].
  now rewrite !append_assoc.
Qed.

(** The only failure of [ToString] on these values. *)
Lemma ToString_error (v : jsval) (e : exn) :
  Js.ToString v = inl e ->
  e = TypeError "Cannot convert object to primitive value".
Proof.
  revert v e. fix IH 1. intros [| |[|]|n|s|elems|props] e; simpl;
    try discriminate.
  - revert e. revert elems. fix IHl 1. intros [|x r] e; simpl; [discriminate|].
    specialize (IHl r). specialize (IH x).
    destruct x as [| |[|]|n|s|l|props]; simpl in *.
    1, 2: destruct (Js.all_or_first_error _) as [er|parts];
      [intros H; inversion H; subst; now apply IHl | discriminate].
    1, 2, 3, 4: destruct (Js.all_or_first_error _) as [er|parts];
      [intros H; inversion H; subst; now apply IHl | discriminate].
    + destruct (Js.all_or_first_error
                  ((fix each (l0 : list jsval) : list (exn + string) :=
                      match l0 with
                      | [] => []
                      | e0 :: r0 =>
                          match e0 with
                          | JUndefined | JNull => inr ""%string
                          | _ => Js.ToString e0
                          end :: each r0
                      end) l)) as [el|pl].
      * intros H. inversion H. subst. now apply IH.
      * destruct (Js.all_or_first_error _) as [er|parts];
          [intros H; inversion H; subst; now apply IHl | discriminate].
    + destruct (JsString.includes (List.map fst props) "toString").
      * intros H. now inversion H.
      * destruct (Js.all_or_first_error _) as [er|parts];
          [intros H; inversion H; subst; now apply IHl | discriminate].
  - destruct (JsString.includes _ _); [|discriminate].
    intros H. now inversion H.
Qed.

Lemma converts_text (props : list (string * jsval)) (n : string) :
  converts props n = true ->
  Js.ToString (Js.lookup props n) = inr (value_text props n).
Proof.
  unfold converts, value_text.
  destruct (Js.ToString (Js.lookup props n)); [discriminate | reflexivity].
Qed.

Lemma not_converts_error (props : list (string * jsval)) (n : string) :
  converts props n = false ->
  Js.ToString (Js.lookup props n) =
  inl (TypeError "Cannot convert object to primitive value").
Proof.
  unfold converts.
  destruct (Js.ToString (Js.lookup props n)) as [e|t] eqn:E; [|discriminate].
  intros _. now rewrite (ToString_error _ _ E).
Qed.

(** The loop over the extracted names on a well-formed template: the
    placeholders of the extracted names are replaced by their values. *)
Lemma substitute_fill (props : list (string * jsval)) (names : list string) :
  forallb brace_free names = true ->
  forallb (converts props) names = true ->
  forall (sel : string -> bool) (pieces : list Piece),
  well_formed pieces = true ->
  forallb (fun m => plain (value_text props m)) (placeholders pieces) = true ->
  substitute (JObj props) names (fill_some sel props pieces) =
  inr (fill_some (fun m => sel m || JsString.includes names m) props pieces).
Proof.
  induction names as [|n names IH]; intros Hnames Hconv sel pieces Hwf Hplain.
  - simpl. f_equal. apply fill_some_ext. intros m _.
    now rewrite orb_false_r.
  - simpl in Hnames. apply andb_true_iff in Hnames as [Hn Hnames].
    simpl in Hconv. apply andb_true_iff in Hconv as [Hc Hconv].
    cbn [substitute]. cbv [Js.Get Js.own_properties]. unfold replaceAll_value.
    rewrite (converts_text props n Hc). unfold JsString.replaceAll.
    rewrite (scan_fill n (value_text props n) props Hn eq_refl)
      by assumption.
    rewrite (IH Hnames Hconv) by assumption.
    f_equal. apply fill_some_ext. intros m _. simpl.
    now rewrite orb_assoc.
Qed.

Lemma fill_no_brace (props : list (string * jsval)) (pieces : list Piece) :
  well_formed pieces = true ->
  forallb (fun m => plain (value_text props m)) (placeholders pieces) = true ->
  JsString.mem "{" (fill props pieces) = false.
Proof.
  unfold fill.
  induction pieces as [|[c|m] rest IH]; simpl; intros Hwf Hplain.
  - reflexivity.
  - apply andb_true_iff in Hwf as [Hc Hwf]. apply negb_true_iff in Hc.
    rewrite Ascii.eqb_sym, Hc. now apply IH.
  - apply andb_true_iff in Hwf as [_ Hwf].
    apply andb_true_iff in Hplain as [Hm Hplain].
    unfold plain in Hm. apply andb_true_iff in Hm as [Hm _].
    apply negb_true_iff in Hm.
    rewrite mem_app, Hm. now apply IH.
Qed.

(** A text without opening brace holds no placeholder. *)
Lemma no_brace_no_placeholder (names : list string) (prompt : string) :
  JsString.mem "{" prompt = false -> no_placeholder_left names prompt.
Proof.
  intros H n _. induction prompt as [|c r IH]; simpl in *.
  - reflexivity.
  - apply orb_false_iff in H as [Hc Hr]. rewrite Hc. simpl. now apply IH.
Qed.

Lemma includes_In (keys : list string) (n : string) :
  JsString.includes keys n = true <-> In n keys.
Proof.
  unfold JsString.includes. rewrite existsb_exists. split.
  - intros [k [Hk E]]. apply String.eqb_eq in E. now subst.
  - intros H. exists n. split; [assumption | apply String.eqb_refl].
Qed.

Lemma every_provided_object (props : list (string * jsval)) (names : list string) :
  every_provided (JObj props) names =
  inr (forallb (JsString.includes (List.map fst props)) names).
Proof.
  induction names as [|n names IH]; [reflexivity|].
  cbn [every_provided forallb]. cbv [Js.Object_keys Js.own_properties].
  destruct (JsString.includes (List.map fst props) n); [apply IH | reflexivity].
Qed.

(** The loop succeeds on an object whose values all convert to a text. *)
Lemma substitute_object (props : list (string * jsval)) (names : list string)
    (prompt : string) :
  forallb (converts props) names = true ->
  exists p, substitute (JObj props) names prompt = inr p.
Proof.
  revert prompt. induction names as [|n names IH]; intros prompt Hconv.
  - now exists prompt.
  - simpl in Hconv. apply andb_true_iff in Hconv as [Hc Hconv].
    cbn [substitute]. cbv [Js.Get Js.own_properties]. unfold replaceAll_value.
    rewrite (converts_text props n Hc). now apply IH.
Qed.

(** The loop fails at the first value that does not convert to a text. *)
Lemma substitute_not_converting (props : list (string * jsval))
    (names : list string) (prompt : string) :
  forallb (converts props) names = false ->
  substitute (JObj props) names prompt =
  inl (TypeError "Cannot convert object to primitive value").
Proof.
  revert prompt. induction names as [|n names IH]; intros prompt Hconv.
  - discriminate.
  - cbn [substitute]. cbv [Js.Get Js.own_properties]. unfold replaceAll_value.
    simpl in Hconv. destruct (converts props n) eqn:Hc.
    + rewrite (converts_text props n Hc). now apply IH.
    + now rewrite (not_converts_error props n Hc).
Qed.

(** [init] from the check of the variable values on, for a named worker
    with parsed values and a supervisor. *)
Lemma init_steps (nodeData : INodeData) (input : string) (options : Options)
    (w : World) (i : Inputs) (workerLabel : string) (values : jsval)
    (s : Supervisor) :
  inputs nodeData = Some i ->
  workerName i = Some workerLabel ->
  JsString.truthy workerLabel = true ->
  parsePromptValues (promptValues i) = inr values ->
  supervisor i = Some s ->
  init nodeData input options w =
  match every_provided values (getInputVariables (workerPrompt i)) with
  | inl e => (w, inl e)
  | inr false =>
      (w, inl (Error "Worker input variables values are not provided!"))
  | inr true =>
      match substitute values (getInputVariables (workerPrompt i)) (workerPrompt i) with
      | inl e => (w, inl e)
      | inr prompt =>
          match
            createAgent (effective_model i s) (flatten (tools i)) prompt
              (maxIterations i)
              (Some {| flow_sessionId := sessionId options;
                       flow_chatId := chatId options;
                       flow_input := Some input |}) w
          with
          | (w', inl e) => (w', inl e)
          | (w', inr agent) =>
              (w', inr {| node := fun state config =>
                                    agentNode state agent (normalize workerLabel)
                                      (options_signal options) config;
                          name := normalize workerLabel;
                          label := workerLabel;
                          type := "worker";
                          node_workerPrompt := prompt;
                          workerInputVariables := getInputVariables (workerPrompt i);
                          parentSupervisorName :=
                            match supervisor_name s with
                            | Has n => n
                            | _ => "supervisor"
                            end |})
          end
      end
  end.
Proof.
  intros Hi Hn Ht Hp Hs. unfold init, effective_model.
  rewrite Hi, Hn, Ht, Hp, Hs. unfold bind, lift, throw, ret. simpl.
  destruct (model i);
    destruct (every_provided values (getInputVariables (workerPrompt i)))
      as [e|[|]]; simpl; try reflexivity;
    destruct (substitute values (getInputVariables (workerPrompt i)) (workerPrompt i));
    simpl; try reflexivity;
    destruct (createAgent _ _ _ _ _ w) as [w' [e|agent]]; reflexivity.
Qed.


(** *** Parsing of the prompt input values *)

Lemma every_provided_failure (values : jsval) (names : list string) (e : exn) :
  every_provided values names = inl e -> exists m, e = TypeError m.
Proof.
  induction names as [|n names IH]; simpl; [discriminate|].
  unfold Js.Object_keys. destruct (Js.own_properties values).
  - destruct (JsString.includes _ n); [assumption | discriminate].
  - intros H. inversion H. eauto.
Qed.

Lemma substitute_failure (values : jsval) (names : list string)
    (prompt : string) (e : exn) :
  substitute values names prompt = inl e -> exists m, e = TypeError m.
Proof.
  revert prompt. induction names as [|n names IH]; intros prompt; simpl;
    [discriminate|].
  unfold Js.Get, replaceAll_value. destruct (Js.own_properties values).
  - destruct (Js.ToString (Js.lookup l n)) as [te|text] eqn:E.
    + intros H. inversion H. subst. rewrite (ToString_error _ _ E). eauto.
    + apply IH.
  - intros H. inversion H. eauto.
Qed.

(** The ways in which [init] can fail before [createAgent] is entered. *)
Lemma init_failure (nodeData : INodeData) (input : string) (options : Options)
    (w : World) (e : exn) :
  snd (init nodeData input options w) = inl e ->
  new_calls w (fst (init nodeData input options w)) = [] ->
  e = Error "Worker name is required!" \/
  (exists i workerLabel,
     inputs nodeData = Some i /\ workerName i = Some workerLabel /\
     JsString.truthy workerLabel = true /\
     parsePromptValues (promptValues i) = inl e) \/
  (exists m, e = TypeError m) \/
  e = Error "Worker input variables values are not provided!".
Proof.
  unfold init.
  destruct (inputs nodeData) as [i|]; [|intros H; inversion H; now left].
  destruct (workerName i) as [workerLabel|] eqn:Hn;
    [|intros H; inversion H; now left].
  destruct (JsString.truthy workerLabel) eqn:Ht; simpl;
    [|intros H; inversion H; now left].
  unfold bind, lift, throw, ret.
  destruct (parsePromptValues (promptValues i)) as [pe|values] eqn:Hp; simpl.
  { intros H. inversion H. subst. right. left. exists i, workerLabel. auto. }
  match goal with
  | |- context [match ?x with inl _ => _ | inr _ => _ end] =>
      destruct x as [le|llm] eqn:Hl
  end; simpl.
  { intros H. inversion H. subst. right. right. left.
    destruct (model i); [discriminate|].
    destruct (supervisor i); [discriminate|]. inversion Hl. eauto. }
  destruct (every_provided values (getInputVariables (workerPrompt i)))
    as [ee|[|]] eqn:He; simpl.
  { intros H. inversion H. subst. right. right. left.
    now apply (every_provided_failure _ _ _ He). }
  2:{ intros H. inversion H. auto. }
  destruct (substitute values (getInputVariables (workerPrompt i)) (workerPrompt i))
    as [se|prompt] eqn:Hs; simpl.
  { intros H. inversion H. subst. right. right. left.
    now apply (substitute_failure _ _ _ _ Hs). }
  match goal with
  | |- context [createAgent ?a ?b ?c ?d ?f w] =>
      pose proof (createAgent_records a b c d f w) as Hc;
      destruct (createAgent a b c d f w) as [w' [ce|agent]]
  end; simpl in *; subst w'.
  { intros _. rewrite new_calls_record. discriminate. }
  destruct (supervisor i); simpl; intros _; rewrite new_calls_record;
    discriminate.
Qed.

(** A failure of [init] after [createAgent] was entered is the failure of
    [createAgent], or comes from reading the name of a missing supervisor. *)
Lemma init_late_failure (nodeData : INodeData) (input : string)
    (options : Options) (w : World) (e : exn)
    (llm : option BaseChatModel) (tools : list Tool) (systemPrompt : string)
    (maxIterations : option string) (flowObj : option FlowObj) :
  snd (init nodeData input options w) = inl e ->
  new_calls w (fst (init nodeData input options w)) =
    [CreateAgentCalled llm tools systemPrompt maxIterations flowObj] ->
  snd (createAgent llm tools systemPrompt maxIterations flowObj w) = inl e \/
  e = TypeError "Cannot read properties of undefined (reading 'name')".
Proof.
  unfold init.
  destruct (inputs nodeData) as [i|];
    [|intros _; simpl; rewrite new_calls_same; discriminate].
  destruct (workerName i) as [workerLabel|] eqn:Hn;
    [|intros _; simpl; rewrite new_calls_same; discriminate].
  destruct (JsString.truthy workerLabel) eqn:Ht; simpl;
    [|intros _; rewrite new_calls_same; discriminate].
  unfold bind, lift, throw, ret.
  destruct (parsePromptValues (promptValues i)) as [pe|values] eqn:Hp; simpl;
    [intros _; rewrite new_calls_same; discriminate|].
  match goal with
  | |- context [match ?x with inl _ => _ | inr _ => _ end] =>
      destruct x as [le|llm'] eqn:Hl
  end; simpl; [intros _; rewrite new_calls_same; discriminate|].
  destruct (every_provided values (getInputVariables (workerPrompt i)))
    as [ee|[|]] eqn:He; simpl;
    try (intros _; rewrite new_calls_same; discriminate).
  destruct (substitute values (getInputVariables (workerPrompt i)) (workerPrompt i))
    as [se|prompt] eqn:Hs; simpl;
    [intros _; rewrite new_calls_same; discriminate|].
  match goal with
  | |- context [createAgent ?a ?b ?c ?d ?f w] =>
      pose proof (createAgent_records a b c d f w) as Hc;
      destruct (createAgent a b c d f w) as [w' [ce|agent]] eqn:Hrun
  end; simpl in *; subst w'.
  - intros H. inversion H. subst ce. rewrite new_calls_record.
    intros K. inversion K. subst. rewrite Hrun. now left.
  - destruct (supervisor i); simpl; [discriminate|].
    intros H _. inversion H. now right.
Qed.

(** The malformed-JSON error comes from a failing [JSON.parse] on a
    non-empty text, [JSON.parse] accepting the text of [true] and of every
    integer, the other values it may be given; or else it is an error of
    the agent library, thrown inside [createAgent]. *)
Lemma invalid_json_only_for_text (nodeData : INodeData) (input : string)
    (options : Options) (w : World) (text : string) :
  (exists v, JSON_parse "true" = inr v) ->
  (forall n : safe_integer,
     exists v,
       JSON_parse (NilZero.string_of_int (Z.to_int (integer_value n))) = inr v) ->
  snd (init nodeData input options w) =
  inl (Error ("Invalid JSON in the Worker's Prompt Input Values: " ++ text)) ->
  (exists i s,
     inputs nodeData = Some i /\
     promptValues i = JStr s /\
     JsString.truthy s = true /\
     JSON_parse s = inl text) \/
  (exists llm tools systemPrompt maxIterations flowObj,
     new_calls w (fst (init nodeData input options w)) =
       [CreateAgentCalled llm tools systemPrompt maxIterations flowObj] /\
     snd (createAgent llm tools systemPrompt maxIterations flowObj w) =
     inl (Error ("Invalid JSON in the Worker's Prompt Input Values: " ++ text))).
Proof.
  intros [vt Htrue] Hint H.
  destruct (init_calls nodeData input options w)
    as [Hcalls|[llm [tools [p [mi [fo Hcalls]]]]]].
  - left.
    destruct (init_failure _ _ _ _ _ H Hcalls)
      as [K|[[i [l [Hi [_ [_ Hp]]]]]|[[m K]|K]]];
      try (simpl in K; discriminate).
    exists i. unfold parsePromptValues, JSON_parse_value in Hp.
    destruct (promptValues i) as [| |[|]|n|s|elems|props]; simpl in Hp;
      try discriminate.
    + rewrite Htrue in Hp. discriminate.
    + destruct (negb (Z.eqb (integer_value n) 0)); [|discriminate].
      destruct (Hint n) as [v Hv]. rewrite Hv in Hp. discriminate.
    + exists s. destruct (JsString.truthy s) eqn:Hs; [|discriminate].
      destruct (JSON_parse s) as [exception|]; [|discriminate].
      simpl in Hp. inversion Hp. auto.
  - right. exists llm, tools, p, mi, fo. split; [exact Hcalls|].
    destruct (init_late_failure _ _ _ _ _ _ _ _ _ _ H Hcalls) as [K|K];
      [exact K | discriminate K].
Qed.

(** A non-empty text that [JSON.parse] rejects stops a named worker's
    construction with the malformed-JSON error around the exception. *)
Lemma invalid_json_on_rejected_text (nodeData : INodeData) (input : string)
    (options : Options) (w : World) (i : Inputs)
    (workerLabel s text : string) :
  inputs nodeData = Some i ->
  workerName i = Some workerLabel ->
  JsString.truthy workerLabel = true ->
  promptValues i = JStr s ->
  JsString.truthy s = true ->
  JSON_parse s = inl text ->
  init nodeData input options w =
  (w, inl (Error ("Invalid JSON in the Worker's Prompt Input Values: " ++ text))).
Proof.
  intros Hi Hn Ht Hv Hs Hj. unfold init, parsePromptValues, JSON_parse_value.
  rewrite Hi, Hn, Ht, Hv. simpl. rewrite Hs, Hj. reflexivity.
Qed.

(** An object or array given as values is what the check of the variables
    and the substitution loop work on. *)
Lemma init_object_values (nodeData : INodeData) (input : string)
    (options : Options) (w : World) (i : Inputs) (workerLabel : string)
    (s : Supervisor) :
  inputs nodeData = Some i ->
  workerName i = Some workerLabel ->
  JsString.truthy workerLabel = true ->
  supervisor i = Some s ->
  Js.typeof_object (promptValues i) = true ->
  Js.truthy (promptValues i) = true ->
  let names := getInputVariables (workerPrompt i) in
  (every_provided (promptValues i) names = inr false ->
   init nodeData input options w =
   (w, inl (Error "Worker input variables values are not provided!"))) /\
  (forall prompt,
     every_provided (promptValues i) names = inr true ->
     substitute (promptValues i) names (workerPrompt i) = inr prompt ->
     prompts_passed (new_calls w (fst (init nodeData input options w))) =
     [prompt]).
Proof.
  intros Hi Hn Ht Hs Hobj Htruthy names.
  assert (Hp : parsePromptValues (promptValues i) = inr (promptValues i)).
  { unfold parsePromptValues. now rewrite Htruthy, Hobj. }
  rewrite (init_steps nodeData input options w i workerLabel (promptValues i) s
             Hi Hn Ht Hp Hs).
  fold names. split.
  - intros ->. reflexivity.
  - intros prompt -> ->.
    match goal with
    | |- context [createAgent ?a ?b ?c ?d ?f w] =>
        pose proof (createAgent_records a b c d f w) as Hrec;
        destruct (createAgent a b c d f w) as [w' [ce|agent']]
    end; simpl in *; subst w'; rewrite new_calls_record; reflexivity.
Qed.

(** *** Further properties of the name normalization *)

Lemma normalizeChar_not_upper (c : ascii) :
  JsString.isUpper (normalizeChar c) = false.
Proof. destruct c as [[] [] [] [] [] [] [] []]; vm_compute; reflexivity. Qed.

Lemma length_map (f : ascii -> ascii) (s : string) :
  String.length (JsString.map f s) = String.length s.
Proof. induction s as [|c r IH]; simpl; [reflexivity | now rewrite IH]. Qed.

(** X1. The [trim] of the normalization never removes anything: the
    normalized name is the lower-cased label with each white-space unit
    turned into an underscore, so it has the length of the label, is empty
    only for the empty label, and holds no white space and no upper-case
    letter. *)
Theorem normalize_shape (s : string) :
  normalize s = JsString.replace_whitespace_g (JsString.toLowerCase s) /\
  String.length (normalize s) = String.length s /\
  JsString.truthy (normalize s) = JsString.truthy s /\
  all_units (fun c => negb (JsString.isWhiteSpace c) && negb (JsString.isUpper c))
            (normalize s) = true.
Proof.
  split; [|split; [|split]].
  - rewrite normalize_map.
    unfold JsString.replace_whitespace_g, JsString.toLowerCase.
    now rewrite map_map.
  - rewrite normalize_map. apply length_map.
  - rewrite normalize_map. destruct s; reflexivity.
  - rewrite normalize_map. induction s as [|c r IH]; simpl; [reflexivity|].
    now rewrite IH, normalizeChar_not_space, normalizeChar_not_upper.
Qed.

(** *** Further properties of the agent factory *)

Lemma occurs_append (p a b : string) :
  JsString.occurs p b = true -> JsString.occurs p (a ++ b) = true.
Proof.
  intros H. induction a as [|c a IH]; simpl; [assumption|].
  rewrite IH. apply orb_true_r.
Qed.

(** An agent that [createAgent] returns is built on the given prompt
    followed by the fixed instructions. *)
Lemma createAgent_prompt (llm : option BaseChatModel) (tools : list Tool)
    (systemPrompt : string) (maxIterations : option string)
    (flowObj : option FlowObj) (w : World) (agent : Agent) :
  snd (createAgent llm tools systemPrompt maxIterations flowObj w) = inr agent ->
  exists rest,
    agent_prompt agent =
    Some (SystemMessage (systemPrompt ++ boilerplate) :: rest).
Proof.
  unfold createAgent, bind, emit, lift, throw, ret,
    ChatPromptTemplate_fromMessages, RunnableSequence_from,
    AgentExecutor_fromAgentAndTools.
  destruct tools as [|t ts]; simpl.
  - destruct (prompt_error _); simpl; [discriminate|].
    destruct (sequence_error _); simpl; [discriminate|].
    intros E. inversion E. eexists. reflexivity.
  - destruct (prompt_error _); simpl; [discriminate|].
    destruct llm as [m|]; simpl; [|discriminate].
    destruct (bindTools m) as [f|]; simpl; [|discriminate].
    destruct (f (t :: ts)); simpl; [discriminate|].
    destruct (sequence_error _); simpl; [discriminate|].
    destruct (executor_error _); simpl; [discriminate|].
    intros E. inversion E. eexists. reflexivity.
Qed.

(** Which agents [createAgent] can return. *)
Lemma createAgent_returns (llm : option BaseChatModel) (tools : list Tool)
    (systemPrompt : string) (maxIterations : option string)
    (flowObj : option FlowObj) (w : World) (agent : Agent) :
  snd (createAgent llm tools systemPrompt maxIterations flowObj w) = inr agent ->
  tools = [] \/
  exists m bind_tools, llm = Some m /\ bindTools m = Some bind_tools.
Proof.
  unfold createAgent, bind, emit, lift, throw, ret,
    ChatPromptTemplate_fromMessages.
  destruct tools as [|t ts]; simpl; [now left|].
  destruct (prompt_error _); simpl; [discriminate|].
  destruct llm as [m|]; simpl; [|discriminate].
  destruct (bindTools m) as [f|] eqn:Hb; simpl; [|discriminate].
  intros _. right. exists m, f. auto.
Qed.

(** *** Further properties of the invocation wrapper *)

(** X4. [agentNode] calls the agent's invoke at most once: exactly once,
    with the team state and the controller's signal, when the controller
    is present and its signal is not set, and not at all otherwise; the
    call stays recorded whether invoke returns or throws. *)
Theorem agentNode_invokes_at_most_once (state : ITeamState) (agent : Agent)
    (name : string) (abortControllerSignal : option AbortController)
    (config : RunnableConfig) (w : World) :
  new_calls w (fst (agentNode state agent name abortControllerSignal config w)) =
  match abortControllerSignal with
  | Some c =>
      if aborted w (controller_id c) then []
      else [AgentInvoked agent
              {| input_state := state; input_signal := signal c |} config]
  | None => []
  end.
Proof.
  unfold agentNode, try_catch, bind, lift, read_aborted, emit, throw, ret.
  destruct abortControllerSignal as [c|]; simpl; [|apply new_calls_same].
  destruct (aborted w (controller_id c)); simpl; [apply new_calls_same|].
  destruct (agent_invoke _ _ _ _); simpl; apply new_calls_record.
Qed.

(** X5. [agentNode] returns a delta exactly when the controller is
    present, its signal is not set and invoke returns a result; the delta
    then holds the one message built from that result. *)
Theorem agentNode_returns_iff (state : ITeamState) (agent : Agent)
    (name : string) (abortControllerSignal : option AbortController)
    (config : RunnableConfig) (w : World) (delta : StateDelta) :
  snd (agentNode state agent name abortControllerSignal config w) = inr delta <->
  exists c r,
    abortControllerSignal = Some c /\
    aborted w (controller_id c) = false /\
    agent_invoke agent {| input_state := state; input_signal := signal c |}
      config
      (record (AgentInvoked agent
                 {| input_state := state; input_signal := signal c |} config) w)
    = inr r /\
    delta = {| messages := [message_of name r] |}.
Proof.
  unfold agentNode, try_catch, bind, lift, read_aborted, emit, throw, ret.
  split.
  - destruct abortControllerSignal as [c|]; simpl; [|discriminate].
    destruct (aborted w (controller_id c)) eqn:Hab; simpl; [discriminate|].
    destruct (agent_invoke _ _ _ _) as [e|r] eqn:Hr; simpl; [discriminate|].
    intros H. inversion H. exists c, r. repeat split; assumption.
  - intros [c [r [-> [Hab [Hr ->]]]]]. simpl in *. rewrite Hab. simpl.
    rewrite Hr. reflexivity.
Qed.


(** *** Further properties of the construction *)

(** X6. A worker that [init] returns has the normalized label as name, the
    label as written, the type 'worker' and the variables extracted from
    the template as configured; every one of these variables had a value,
    the prompt of the worker is the template after the substitution loop,
    and it is the prompt that the one call of [createAgent] was given. *)
Theorem init_worker_fields (nodeData : INodeData) (input : string)
    (options : Options) (w : World) (worker : IMultiAgentNode) :
  snd (init nodeData input options w) = inr worker ->
  exists i workerLabel values,
    inputs nodeData = Some i /\
    workerName i = Some workerLabel /\
    JsString.truthy workerLabel = true /\
    parsePromptValues (promptValues i) = inr values /\
    name worker = normalize workerLabel /\
    label worker = workerLabel /\
    type worker = "worker" /\
    workerInputVariables worker = getInputVariables (workerPrompt i) /\
    every_provided values (workerInputVariables worker) = inr true /\
    substitute values (workerInputVariables worker) (workerPrompt i) =
      inr (node_workerPrompt worker) /\
    prompts_passed (new_calls w (fst (init nodeData input options w))) =
      [node_workerPrompt worker].
Proof.
  unfold init.
  destruct (inputs nodeData) as [i|]; [|discriminate].
  destruct (workerName i) as [workerLabel|] eqn:Hn; [|discriminate].
  destruct (JsString.truthy workerLabel) eqn:Ht; simpl; [|discriminate].
  unfold bind, lift, throw, ret.
  destruct (parsePromptValues (promptValues i)) as [pe|values] eqn:Hp; simpl;
    [discriminate|].
  match goal with
  | |- context [match ?x with inl _ => _ | inr _ => _ end] =>
      destruct x as [le|llm] eqn:Hl
  end; simpl; [discriminate|].
  destruct (every_provided values (getInputVariables (workerPrompt i)))
    as [ee|[|]] eqn:He; simpl; try discriminate.
  destruct (substitute values (getInputVariables (workerPrompt i)) (workerPrompt i))
    as [se|prompt] eqn:Hs; simpl; [discriminate|].
  match goal with
  | |- context [createAgent ?a ?b ?c ?d ?f w] =>
      pose proof (createAgent_records a b c d f w) as Hc;
      destruct (createAgent a b c d f w) as [w' [ce|agent]]
  end; simpl in *; [discriminate|].
  destruct (supervisor i); simpl; [|discriminate].
  intros H. inversion H. subst. simpl.
  exists i, workerLabel, values. rewrite new_calls_record. simpl.
  repeat split; assumption.
Qed.

(** X7. Without a supervisor [init] never returns a worker.  With the
    node's own model the failure comes late: the checks pass, the agent is
    constructed, and only then reading the supervisor's name throws; with
    no model either, reading the supervisor's model throws before the
    variables are looked at. *)
Theorem init_without_supervisor (nodeData : INodeData) (input : string)
    (options : Options) (w : World) (i : Inputs) (workerLabel : string)
    (values : jsval) :
  inputs nodeData = Some i ->
  supervisor i = None ->
  workerName i = Some workerLabel ->
  JsString.truthy workerLabel = true ->
  parsePromptValues (promptValues i) = inr values ->
  (forall worker, snd (init nodeData input options w) <> inr worker) /\
  (model i = None ->
   init nodeData input options w =
   (w, inl (TypeError "Cannot read properties of undefined (reading 'llm')"))) /\
  (forall m prompt agent,
     model i = Some m ->
     every_provided values (getInputVariables (workerPrompt i)) = inr true ->
     substitute values (getInputVariables (workerPrompt i)) (workerPrompt i) =
       inr prompt ->
     snd (createAgent (Some m) (flatten (tools i)) prompt (maxIterations i)
            (Some {| flow_sessionId := sessionId options;
                     flow_chatId := chatId options;
                     flow_input := Some input |}) w) = inr agent ->
     snd (init nodeData input options w) =
       inl (TypeError "Cannot read properties of undefined (reading 'name')") /\
     models_passed (new_calls w (fst (init nodeData input options w))) = [Some m]).
Proof.
  intros Hi Hs Hn Ht Hp. unfold init. rewrite Hi, Hn, Ht, Hp, Hs.
  unfold bind, lift, throw, ret. simpl. split; [|split].
  - intros worker. destruct (model i); simpl; [|discriminate].
    destruct (every_provided values (getInputVariables (workerPrompt i)))
      as [ee|[|]]; simpl; try discriminate.
    destruct (substitute values (getInputVariables (workerPrompt i)) (workerPrompt i));
      simpl; [discriminate|].
    destruct (createAgent _ _ _ _ _ w) as [w' [ce|agent]]; discriminate.
  - intros ->. reflexivity.
  - intros m prompt agent -> He Hsub Hc. rewrite He. simpl. rewrite Hsub. simpl.
    match goal with
    | |- context [createAgent ?a ?b ?c ?d ?f w] =>
        pose proof (createAgent_records a b c d f w) as Hrec;
        destruct (createAgent a b c d f w) as [w' [ce|agent']]
    end; simpl in *; [discriminate|]. subst w'.
    rewrite new_calls_record. split; reflexivity.
Qed.

(** X8. Prompt input values that are falsy (undefined, null, the empty
    text, zero, false) count as the empty object: the run is the one of the
    same configuration with [{}] as values. *)
Theorem init_falsy_promptValues (nodeData : INodeData) (input : string)
    (options : Options) (w : World) (i : Inputs) :
  inputs nodeData = Some i ->
  Js.truthy (promptValues i) = false ->
  init nodeData input options w =
  init {| inputs := Some (with_promptValues i (JObj [])) |} input options w.
Proof.
  intros Hi Hf. unfold init, parsePromptValues. rewrite Hi. simpl.
  rewrite Hf. reflexivity.
Qed.

(** X9. When no variable is extracted from the template, the values play
    no part after their parsing: for a named worker with a supervisor,
    whatever the parsed values are (even [null]), [createAgent] is given
    the template as configured, and a returned worker has it as prompt. *)
Theorem init_without_variables (nodeData : INodeData) (input : string)
    (options : Options) (w : World) (i : Inputs) (workerLabel : string)
    (values : jsval) (s : Supervisor) :
  inputs nodeData = Some i ->
  workerName i = Some workerLabel ->
  JsString.truthy workerLabel = true ->
  parsePromptValues (promptValues i) = inr values ->
  supervisor i = Some s ->
  getInputVariables (workerPrompt i) = [] ->
  prompts_passed (new_calls w (fst (init nodeData input options w))) =
    [workerPrompt i] /\
  (forall worker, snd (init nodeData input options w) = inr worker ->
     node_workerPrompt worker = workerPrompt i /\
     workerInputVariables worker = []).
Proof.
  intros Hi Hn Ht Hp Hs Hv.
  rewrite (init_steps nodeData input options w i workerLabel values s
             Hi Hn Ht Hp Hs).
  rewrite Hv. simpl.
  match goal with
  | |- context [createAgent ?a ?b ?c ?d ?f w] =>
      pose proof (createAgent_records a b c d f w) as Hrec;
      destruct (createAgent a b c d f w) as [w' [ce|agent']]
  end; simpl in *; subst w'; rewrite new_calls_record; simpl.
  - split; [reflexivity | discriminate].
  - split; [reflexivity|]. intros worker H. inversion H. split; reflexivity.
Qed.

(** X10. When the template has a variable and the parsed values have no
    property to offer, a named worker with a supervisor is not
    constructed: for [null] the check itself throws a [TypeError]; for a
    number, a boolean, the empty object, array or text it fails with
    'Worker input variables values are not provided!'.  In both cases
    [createAgent] is not reached. *)
Theorem init_values_without_properties (nodeData : INodeData) (input : string)
    (options : Options) (w : World) (i : Inputs) (workerLabel : string)
    (values : jsval) (s : Supervisor) :
  inputs nodeData = Some i ->
  workerName i = Some workerLabel ->
  JsString.truthy workerLabel = true ->
  parsePromptValues (promptValues i) = inr values ->
  supervisor i = Some s ->
  getInputVariables (workerPrompt i) <> [] ->
  (Js.own_properties values = None ->
   init nodeData input options w =
   (w, inl (TypeError "Cannot convert undefined or null to object"))) /\
  (Js.own_properties values = Some [] ->
   init nodeData input options w =
   (w, inl (Error "Worker input variables values are not provided!"))).
Proof.
  intros Hi Hn Ht Hp Hs Hv.
  rewrite (init_steps nodeData input options w i workerLabel values s
             Hi Hn Ht Hp Hs).
  destruct (getInputVariables (workerPrompt i)) as [|n names]; [contradiction|].
  cbn [every_provided]. unfold Js.Object_keys.
  split; intros ->; reflexivity.
Qed.

(** X11. Once the name, the values and the variables are in order and the
    library accepts the prompt, the tools and the model decide: a named
    worker with a supervisor whose variables all have values fails with the
    unsupported-model error when the flattened tool list is not empty and
    the effective model has no [bindTools]; it is returned when that list is
    empty and the library builds the chain, and when the effective model
    has [bindTools] and the library binds the tools and builds the sequence
    and the executor; and it is returned only when that list is empty or
    the effective model has [bindTools]. *)
Theorem init_outcome_by_tools (nodeData : INodeData) (input : string)
    (options : Options) (w : World) (i : Inputs) (workerLabel : string)
    (values : jsval) (s : Supervisor) (prompt : string) :
  inputs nodeData = Some i ->
  workerName i = Some workerLabel ->
  JsString.truthy workerLabel = true ->
  parsePromptValues (promptValues i) = inr values ->
  supervisor i = Some s ->
  every_provided values (getInputVariables (workerPrompt i)) = inr true ->
  substitute values (getInputVariables (workerPrompt i)) (workerPrompt i) =
    inr prompt ->
  let with_tools :=
    [SystemMessage (prompt ++ boilerplate); MessagesPlaceholder "messages";
     MessagesPlaceholder "agent_scratchpad"] in
  let without_tools :=
    [SystemMessage (prompt ++ boilerplate); MessagesPlaceholder "messages"] in
  (forall m,
     flatten (tools i) <> [] ->
     prompt_error with_tools = None ->
     effective_model i s = Some m ->
     bindTools m = None ->
     snd (init nodeData input options w) =
     inl (Error "This agent only compatible with function calling models.")) /\
  (flatten (tools i) = [] ->
   prompt_error without_tools = None ->
   sequence_error
     [Prompt without_tools; Model (effective_model i s); StringOutputParser] =
     None ->
   exists worker, snd (init nodeData input options w) = inr worker) /\
  (forall m bind_tools modelWithTools,
     flatten (tools i) <> [] ->
     prompt_error with_tools = None ->
     effective_model i s = Some m ->
     bindTools m = Some bind_tools ->
     bind_tools (flatten (tools i)) = inr modelWithTools ->
     sequence_error
       [AssignAgentScratchpad; Prompt with_tools; ModelWithTools modelWithTools;
        ToolCallingAgentOutputParser] = None ->
     (forall fields,
        executor_tools fields = flatten (tools i) -> executor_error fields = None) ->
     exists worker, snd (init nodeData input options w) = inr worker) /\
  ((exists worker, snd (init nodeData input options w) = inr worker) ->
   flatten (tools i) = [] \/
   exists m bind_tools,
     effective_model i s = Some m /\ bindTools m = Some bind_tools).
Proof.
  intros Hi Hn Ht Hp Hs He Hsub with_tools without_tools.
  rewrite (init_steps nodeData input options w i workerLabel values s
             Hi Hn Ht Hp Hs).
  rewrite He, Hsub.
  split; [|split; [|split]].
  - intros m Hne Hpe Hm Hb. rewrite Hm.
    unfold createAgent, bind, emit, lift, throw, ret,
      ChatPromptTemplate_fromMessages.
    destruct (flatten (tools i)) as [|t ts]; [contradiction|]. simpl.
    fold with_tools. rewrite Hpe. simpl. rewrite Hb. reflexivity.
  - intros Hnil Hpe Hse.
    unfold createAgent, bind, emit, lift, throw, ret,
      ChatPromptTemplate_fromMessages, RunnableSequence_from.
    rewrite Hnil. simpl. fold without_tools. rewrite Hpe. simpl.
    rewrite Hse. simpl. eexists. reflexivity.
  - intros m bind_tools modelWithTools Hne Hpe Hm Hb Hbound Hse Hex.
    rewrite Hm.
    unfold createAgent, bind, emit, lift, throw, ret,
      ChatPromptTemplate_fromMessages, RunnableSequence_from,
      AgentExecutor_fromAgentAndTools.
    destruct (flatten (tools i)) as [|t ts]; [contradiction|]. simpl.
    fold with_tools. rewrite Hpe. simpl. rewrite Hb. simpl.
    rewrite Hbound. simpl. rewrite Hse. simpl.
    rewrite Hex by reflexivity. simpl. eexists. reflexivity.
  - intros [worker H].
    match type of H with
    | context [createAgent ?a ?b ?c ?d ?f w] =>
        pose proof (createAgent_returns a b c d f w) as Hc;
        destruct (createAgent a b c d f w) as [w' [ce|agent]]
    end; [discriminate|].
    exact (Hc agent eq_refl).
Qed.

(** X12. A failure of [init] before the agent factory is entered is one of
    four: the missing-name error, the malformed-JSON error around the text
    of a parse exception, a [TypeError], or the missing-values error; it is
    never 'Aborted!'.  A failure after the factory was entered is the
    failure of the factory, or the [TypeError] of reading the name of a
    missing supervisor. *)
Theorem init_failure_kinds (nodeData : INodeData) (input : string)
    (options : Options) (w : World) (e : exn) :
  snd (init nodeData input options w) = inl e ->
  (new_calls w (fst (init nodeData input options w)) = [] ->
   (e = Error "Worker name is required!" \/
    (exists text,
       e = Error ("Invalid JSON in the Worker's Prompt Input Values: " ++ text)) \/
    (exists m, e = TypeError m) \/
    e = Error "Worker input variables values are not provided!") /\
   e <> Error "Aborted!") /\
  (forall llm tools systemPrompt maxIterations flowObj,
     new_calls w (fst (init nodeData input options w)) =
       [CreateAgentCalled llm tools systemPrompt maxIterations flowObj] ->
     snd (createAgent llm tools systemPrompt maxIterations flowObj w) = inl e \/
     e = TypeError "Cannot read properties of undefined (reading 'name')").
Proof.
  intros H. split.
  - intros Hcalls. pose proof (init_failure _ _ _ _ _ H Hcalls) as F.
    assert (K : e = Error "Worker name is required!" \/
                (exists text,
                   e = Error ("Invalid JSON in the Worker's Prompt Input Values: "
                              ++ text)) \/
                (exists m, e = TypeError m) \/
                e = Error "Worker input variables values are not provided!").
    { destruct F as [F|[[i [l [_ [_ [_ Hp]]]]]|[F|F]]]; auto.
      right. left. unfold parsePromptValues in Hp.
      destruct (Js.truthy (promptValues i)); [|discriminate].
      destruct (Js.typeof_object (promptValues i)); [discriminate|].
      destruct (JSON_parse_value (promptValues i)) as [exception|];
        [|discriminate].
      inversion Hp. exists exception. reflexivity. }
    split; [exact K|].
    destruct K as [->|[[text ->]|[[m ->]| ->]]]; simpl; discriminate.
  - intros llm tools systemPrompt maxIterations flowObj Hcalls.
    exact (init_late_failure _ _ _ _ _ _ _ _ _ _ H Hcalls).
Qed.

(** X13. Construction never invokes the agent: [init] records no call of
    invoke, and at most one call of [createAgent]. *)
Theorem init_never_invokes (nodeData : INodeData) (input : string)
    (options : Options) (w : World) :
  (forall agent invokeInput config,
     ~ In (AgentInvoked agent invokeInput config)
          (new_calls w (fst (init nodeData input options w)))) /\
  List.length (new_calls w (fst (init nodeData input options w))) <= 1.
Proof.
  destruct (init_calls nodeData input options w)
    as [E|[llm [tools [p [mi [fo E]]]]]]; rewrite E; simpl.
  - split; [intros ? ? ? []| lia].
  - split; [|lia]. intros agent invokeInput config [H|[]]. discriminate.
Qed.


(** What a returning run of [init] went through. *)
Lemma init_returns (nodeData : INodeData) (input : string) (options : Options)
    (w : World) (worker : IMultiAgentNode) :
  snd (init nodeData input options w) = inr worker ->
  exists i workerLabel s prompt agent,
    inputs nodeData = Some i /\
    workerName i = Some workerLabel /\
    supervisor i = Some s /\
    snd (createAgent (effective_model i s) (flatten (tools i)) prompt
           (maxIterations i)
           (Some {| flow_sessionId := sessionId options;
                    flow_chatId := chatId options;
                    flow_input := Some input |}) w) = inr agent /\
    worker =
      {| node := fun state config =>
                   agentNode state agent (normalize workerLabel)
                     (options_signal options) config;
         name := normalize workerLabel;
         label := workerLabel;
         type := "worker";
         node_workerPrompt := prompt;
         workerInputVariables := getInputVariables (workerPrompt i);
         parentSupervisorName :=
           match supervisor_name s with
           | Has n => n
           | _ => "supervisor"
           end |}.
Proof.
  intros H.
  destruct (inputs nodeData) as [i|] eqn:Hi;
    [|unfold init in H; rewrite Hi in H; discriminate].
  destruct (workerName i) as [workerLabel|] eqn:Hn;
    [|unfold init in H; rewrite Hi, Hn in H; discriminate].
  destruct (JsString.truthy workerLabel) eqn:Ht;
    [|unfold init in H; rewrite Hi, Hn, Ht in H; discriminate].
  destruct (parsePromptValues (promptValues i)) as [pe|values] eqn:Hp;
    [unfold init in H; rewrite Hi, Hn, Ht, Hp in H; discriminate|].
  destruct (supervisor i) as [s|] eqn:Hs.
  - rewrite (init_steps nodeData input options w i workerLabel values s
               Hi Hn Ht Hp Hs) in H.
    destruct (every_provided values (getInputVariables (workerPrompt i)))
      as [ee|[|]]; try discriminate.
    destruct (substitute values (getInputVariables (workerPrompt i)) (workerPrompt i))
      as [se|prompt]; [discriminate|].
    exists i, workerLabel, s, prompt.
    destruct (createAgent _ _ _ _ _ w) as [w' [ce|agent]]; [discriminate|].
    exists agent. simpl in *. inversion H. auto.
  - exfalso. revert H. unfold init. rewrite Hi, Hn, Ht, Hp, Hs.
    unfold bind, lift, throw, ret. simpl.
    destruct (model i); simpl; [|discriminate].
    destruct (every_provided values (getInputVariables (workerPrompt i)))
      as [ee|[|]]; simpl; try discriminate.
    destruct (substitute values (getInputVariables (workerPrompt i)) (workerPrompt i));
      simpl; [discriminate|].
    destruct (createAgent _ _ _ _ _ w) as [w' [ce|agent]]; discriminate.
Qed.

(** *** The returned worker at work *)


(** X15. When [options] carries no abort controller, construction still
    returns a worker, but its step function can never run: every run fails
    with 'Aborted!' without invoking the agent. *)
Theorem worker_without_controller (nodeData : INodeData) (input : string)
    (options : Options) (w : World) (worker : IMultiAgentNode) :
  options_signal options = None ->
  snd (init nodeData input options w) = inr worker ->
  forall (state : ITeamState) (config : RunnableConfig) (w1 : World),
    node worker state config w1 = (w1, inl (Error "Aborted!")).
Proof.
  intros Ho H.
  destruct (init_returns nodeData input options w worker H)
    as [i [workerLabel [s [prompt [agent [_ [_ [_ [_ ->]]]]]]]]].
  intros state config w1. simpl. rewrite Ho. reflexivity.
Qed.

(** *** Further properties of the substitution loop *)

Lemma startsWith_drop (p s : string) :
  JsString.startsWith p s = true -> s = p ++ JsString.drop (String.length p) s.
Proof.
  revert s. induction p as [|a p IH]; intros s; simpl; [reflexivity|].
  destruct s as [|b s]; [discriminate|].
  intros H. apply andb_true_iff in H as [Hab H].
  apply Ascii.eqb_eq in Hab. subst. f_equal. now apply IH.
Qed.

(** With the replacement [$&] every match is written back. *)
Lemma scan_dollar_ampersand (a : ascii) (p s before : string) (k : nat) :
  JsString.replaceAll_scan (String a p) "$&" before s k = JsString.drop k s.
Proof.
  revert before k. induction s as [|c r IH]; intros before k.
  - destruct k; reflexivity.
  - destruct k as [|k].
    + change (JsString.replaceAll_scan (String a p) "$&" before (String c r) 0)
        with (if JsString.startsWith (String a p) (String c r)
              then JsString.GetSubstitution (String a p) before
                     (JsString.drop (String.length (String a p)) (String c r))
                     "$&" ++
                   JsString.replaceAll_scan (String a p) "$&"
                     (before ++ String c "") r (String.length p)
              else String c (JsString.replaceAll_scan (String a p) "$&"
                               (before ++ String c "") r 0)).
      destruct (JsString.startsWith (String a p) (String c r)) eqn:E.
      * rewrite IH.
        change (JsString.GetSubstitution (String a p) before
                  (JsString.drop (String.length (String a p)) (String c r)) "$&")
          with (String a p ++ "").
        rewrite append_empty.
        apply startsWith_drop in E. simpl in E. simpl. now rewrite <- E.
      * now rewrite IH.
    + simpl. apply IH.
Qed.

(** X16. A value whose text is [$&] puts every placeholder back: when all
    extracted names have that value, the substitution loop returns the
    prompt unchanged, placeholders included. *)
Theorem substitute_dollar_ampersand (props : list (string * jsval))
    (names : list string) (prompt : string) :
  forallb (fun n => String.eqb (value_text props n) "$&") names = true ->
  substitute (JObj props) names prompt = inr prompt.
Proof.
  revert prompt. induction names as [|n names IH]; intros prompt H.
  - reflexivity.
  - simpl in H. apply andb_true_iff in H as [Hn H].
    apply String.eqb_eq in Hn. unfold value_text in Hn.
    cbn [substitute]. cbv [Js.Get Js.own_properties]. unfold replaceAll_value.
    destruct (Js.ToString (Js.lookup props n)) as [te|text]; [discriminate|].
    subst text. unfold JsString.replaceAll.
    change ("{" ++ n ++ "}") with (String "{" (n ++ "}")).
    rewrite scan_dollar_ampersand. simpl. now apply IH.
Qed.

(** Where the pattern does not occur the scan copies the text. *)
Lemma scan_absent (pattern value s before : string) :
  JsString.occurs pattern s = false ->
  JsString.replaceAll_scan pattern value before s 0 = s.
Proof.
  revert before. induction s as [|c r IH]; intros before H.
  - simpl in H. apply orb_false_iff in H as [H _]. simpl. now rewrite H.
  - simpl in H. apply orb_false_iff in H as [H Hr].
    change (JsString.replaceAll_scan pattern value before (String c r) 0)
      with (if JsString.startsWith pattern (String c r)
            then JsString.GetSubstitution pattern before
                   (JsString.drop (String.length pattern) (String c r)) value ++
                 match String.length pattern with
                 | O => String c (JsString.replaceAll_scan pattern value
                                    (before ++ String c "") r 0)
                 | S k => JsString.replaceAll_scan pattern value
                            (before ++ String c "") r k
                 end
            else String c (JsString.replaceAll_scan pattern value
                             (before ++ String c "") r 0)).
    rewrite H. now rewrite IH.
Qed.

(** X17. The loop rewrites placeholders only: when the extracted names are
    keys of the values, each with a value that converts to a text, and no
    placeholder of an extracted name occurs in the prompt, the prompt comes
    out unchanged. *)
Theorem substitute_without_occurrence (props : list (string * jsval))
    (names : list string) (prompt : string) :
  forallb (JsString.includes (List.map fst props)) names = true ->
  forallb (converts props) names = true ->
  forallb (fun n => negb (JsString.occurs ("{" ++ n ++ "}") prompt)) names = true ->
  substitute (JObj props) names prompt = inr prompt.
Proof.
  induction names as [|n names IH]; intros Hkeys Hconv H.
  - reflexivity.
  - cbn [forallb] in H, Hconv, Hkeys.
    apply andb_true_iff in H as [Hn H].
    apply andb_true_iff in Hconv as [Hc Hconv].
    apply andb_true_iff in Hkeys as [_ Hkeys].
    apply negb_true_iff in Hn.
    cbn [substitute]. cbv [Js.Get Js.own_properties]. unfold replaceAll_value.
    rewrite (converts_text props n Hc).
    unfold JsString.replaceAll. rewrite (scan_absent _ _ _ _ Hn).
    now apply IH.
Qed.

(** X18. On a well-formed template with plain values the loop does not
    depend on the order of the extracted names, on repetitions among them,
    or on names without placeholder in the template: two lists of
    brace-free names, keys of the values with values that convert to a
    text, that agree on the placeholders of the template give the same
    prompt. *)
Theorem substitute_order_irrelevant (props : list (string * jsval))
    (names1 names2 : list string) (pieces : list Piece) :
  forallb brace_free names1 = true ->
  forallb brace_free names2 = true ->
  forallb (JsString.includes (List.map fst props)) names1 = true ->
  forallb (JsString.includes (List.map fst props)) names2 = true ->
  forallb (converts props) names1 = true ->
  forallb (converts props) names2 = true ->
  well_formed pieces = true ->
  forallb (fun m => plain (value_text props m)) (placeholders pieces) = true ->
  forallb (fun m => Bool.eqb (JsString.includes names1 m)
                             (JsString.includes names2 m))
          (placeholders pieces) = true ->
  substitute (JObj props) names1 (render pieces) =
  substitute (JObj props) names2 (render pieces).
Proof.
  intros H1 H2 _ _ C1 C2 Hwf Hplain Hsame.
  rewrite <- (fill_some_none props pieces).
  rewrite (substitute_fill props names1 H1 C1 _ pieces Hwf Hplain).
  rewrite (substitute_fill props names2 H2 C2 _ pieces Hwf Hplain).
  f_equal. apply fill_some_ext. intros m Hm. simpl.
  rewrite forallb_forall in Hsame. apply Bool.eqb_prop. now apply Hsame.
Qed.

(** X19. On a well-formed template with plain values the loop replaces
    the placeholders of the extracted names, keys of the values with values
    that convert to a text, each by the text of its value, and leaves every
    other placeholder as written: an extractor that misses a name leaves
    that placeholder in the prompt. *)
Theorem substitute_replaces_extracted (props : list (string * jsval))
    (names : list string) (pieces : list Piece) :
  forallb brace_free names = true ->
  forallb (JsString.includes (List.map fst props)) names = true ->
  forallb (converts props) names = true ->
  well_formed pieces = true ->
  forallb (fun m => plain (value_text props m)) (placeholders pieces) = true ->
  substitute (JObj props) names (render pieces) =
  inr (fill_some (JsString.includes names) props pieces).
Proof.
  intros Hn _ Hconv Hwf Hplain.
  rewrite <- (fill_some_none props pieces) at 1.
  rewrite (substitute_fill props names Hn Hconv _ pieces Hwf Hplain).
  reflexivity.
Qed.

(** X20. Values written as JSON text run like the object they parse to:
    when the text is not empty and [JSON.parse] gives an object or array
    for it, the run is the one of the same configuration with that object
    as values. *)
Theorem init_text_or_object (nodeData : INodeData) (input : string)
    (options : Options) (w : World) (i : Inputs) (s : string) (values : jsval) :
  inputs nodeData = Some i ->
  promptValues i = JStr s ->
  JsString.truthy s = true ->
  JSON_parse s = inr values ->
  Js.typeof_object values = true ->
  Js.truthy values = true ->
  init nodeData input options w =
  init {| inputs := Some (with_promptValues i values) |} input options w.
Proof.
  intros Hi Hv Hs Hj Ho Ht. unfold init, parsePromptValues, JSON_parse_value.
  rewrite Hi. simpl. rewrite Hv. simpl. rewrite Hs, Hj, Ht, Ho. reflexivity.
Qed.


End Worker.

Arguments init {Tool BoundModel number ITeamState RunnableConfig}
  parseFloat env_DEBUG JSON_parse getInputVariables prompt_error
  sequence_error executor_error agent_invoke nodeData input options _.
Arguments agentNode {Tool BoundModel number ITeamState RunnableConfig}
  agent_invoke state agent name abortControllerSignal config _.
Arguments createAgent {Tool BoundModel number ITeamState RunnableConfig}
  parseFloat env_DEBUG prompt_error sequence_error executor_error
  llm tools systemPrompt maxIterations flowObj _.
Arguments new_calls {Tool BoundModel number ITeamState RunnableConfig} w w'.
Arguments prompts_passed {Tool BoundModel number ITeamState RunnableConfig} events.
Arguments models_passed {Tool BoundModel number ITeamState RunnableConfig} events.
Arguments sample_world {Tool BoundModel number ITeamState RunnableConfig} signal_set.
Arguments sample_nodeData {Tool BoundModel} workerLabel prompt values own_model n.
Arguments sample_inputs {Tool BoundModel} workerLabel prompt values own_model n.
Arguments sample_model {Tool BoundModel} id bind_tools.
Arguments sample_supervisor {Tool BoundModel} n.
Arguments inputs {Tool BoundModel} _.
Arguments promptValues {Tool BoundModel} _.
Arguments workerName {Tool BoundModel} _.
Arguments workerPrompt {Tool BoundModel} _.
Arguments supervisor {Tool BoundModel} _.
Arguments node_workerPrompt {Tool BoundModel number ITeamState RunnableConfig} _.
Arguments parentSupervisorName {Tool BoundModel number ITeamState RunnableConfig} _.
Arguments name {Tool BoundModel number ITeamState RunnableConfig} _.
Arguments Chain {Tool BoundModel number} conversationChain.
Arguments Executor {Tool BoundModel number} executor.
Arguments StringOutputParser {Tool BoundModel}.
Arguments AssignAgentScratchpad {Tool BoundModel}.
Arguments ToolCallingAgentOutputParser {Tool BoundModel}.
Arguments ModelWithTools {Tool BoundModel} modelWithTools.
Arguments executor_tools {Tool BoundModel number} _.
Arguments executor_agent {Tool BoundModel number} _.
Arguments sequence_error_sample {Tool BoundModel} steps.
Arguments CreateAgentCalled {Tool BoundModel number ITeamState RunnableConfig}
  llm tools systemPrompt maxIterations flowObj.
Arguments agent_prompt {Tool BoundModel number} agent.
Arguments with_promptValues {Tool BoundModel} i values.
Arguments with_supervisor {Tool BoundModel} i s.
Arguments AgentInvoked {Tool BoundModel number ITeamState RunnableConfig}
  agent input config.
Arguments node {Tool BoundModel number ITeamState RunnableConfig} _.
Arguments label {Tool BoundModel number ITeamState RunnableConfig} _.
Arguments workerInputVariables {Tool BoundModel number ITeamState RunnableConfig} _.
Arguments Prompt {Tool BoundModel} prompt.
Arguments Model {Tool BoundModel} llm.
Arguments aborted {Tool BoundModel number ITeamState RunnableConfig} _ _.

(** *** The modelled extractor on well-formed templates *)

Local Arguments Ascii.eqb : simpl never.

Lemma scan_placeholders_name (acc m rest : string) :
  brace_free m = true ->
  scan_placeholders (Some acc) (m ++ "}" ++ rest) =
  (acc ++ m) :: scan_placeholders None rest.
Proof.
  unfold brace_free. revert acc. induction m as [|c m IH]; intros acc H.
  - simpl. now rewrite append_empty.
  - simpl in H. apply andb_true_iff in H as [Ho Hc].
    apply negb_true_iff in Ho, Hc.
    apply orb_false_iff in Ho as [Ho Ho'], Hc as [Hc Hc'].
    rewrite Ascii.eqb_sym in Ho, Hc.
    cbn [append scan_placeholders]. rewrite Ho, Hc.
    rewrite IH by (now rewrite Ho', Hc').
    now rewrite append_assoc.
Qed.

(** On a well-formed template the scan finds the placeholders, in order. *)
Lemma scan_placeholders_render (pieces : list Piece) :
  well_formed pieces = true ->
  scan_placeholders None (render pieces) = placeholders pieces.
Proof.
  induction pieces as [|[c|m] rest IH]; simpl; intros H.
  - reflexivity.
  - apply andb_true_iff in H as [Hc H]. apply negb_true_iff in Hc.
    rewrite Hc. destruct (Ascii.eqb c "}"); now apply IH.
  - apply andb_true_iff in H as [Hm H].
    change (m ++ String "}" (render rest)) with (m ++ "}" ++ render rest).
    rewrite scan_placeholders_name by assumption.
    simpl. now rewrite IH.
Qed.

Lemma ordered_set_In (names seen : list string) (n : string) :
  In n names -> In n seen \/ In n (ordered_set seen names).
Proof.
  revert seen. induction names as [|k names IH]; intros seen; [intros []|].
  intros [->|H]; simpl.
  - destruct (JsString.includes seen n) eqn:E.
    + left. now apply includes_In.
    + right. now left.
  - destruct (JsString.includes seen k) eqn:E.
    + now apply IH.
    + destruct (IH (k :: seen) H) as [[->|Hs]|Ho]; auto.
      * right. now left.
      * right. now right.
Qed.

Lemma ordered_set_sub (names seen : list string) (n : string) :
  In n (ordered_set seen names) -> In n names.
Proof.
  revert seen. induction names as [|k names IH]; intros seen; simpl; [intros []|].
  destruct (JsString.includes seen k).
  - intros H. right. now apply (IH seen).
  - intros [->|H]; [now left | right; now apply (IH (k :: seen))].
Qed.

(** On a well-formed template the modelled extractor returns the names of
    the placeholders, which are brace-free. *)
Lemma getInputVariables_spec_render (pieces : list Piece) :
  well_formed pieces = true ->
  forallb (JsString.includes (getInputVariables_spec (render pieces)))
          (placeholders pieces) = true /\
  forallb brace_free (getInputVariables_spec (render pieces)) = true.
Proof.
  intros Hwf. unfold getInputVariables_spec.
  rewrite (scan_placeholders_render pieces Hwf). split.
  - apply forallb_forall. intros n Hn. apply includes_In.
    destruct (ordered_set_In _ [] n Hn) as [[]|H]; assumption.
  - apply forallb_forall. intros n Hn. apply ordered_set_sub in Hn.
    clear -Hwf Hn. induction pieces as [|[c|m] rest IH]; simpl in *.
    + contradiction.
    + apply andb_true_iff in Hwf as [_ Hwf]. now apply IH.
    + apply andb_true_iff in Hwf as [Hm Hwf].
      destruct Hn as [<-|Hn]; [assumption | now apply IH].
Qed.

(** *** The stand-in for [JSON.parse] *)

Lemma safe_integer_of_safe (z : Z) :
  is_safe_integer z = true -> exists n, safe_integer_of z = Some n.
Proof.
  intros H. unfold safe_integer_of.
  generalize (eq_refl (is_safe_integer z)).
  generalize (is_safe_integer z) at 2 3.
  intros b. destruct b; intros E; [eauto | congruence].
Qed.

Lemma integer_of_text_written (z : Z) :
  integer_of_text (NilZero.string_of_int (Z.to_int z)) = Some z.
Proof.
  unfold integer_of_text. rewrite NilZero.isi.
  - rewrite DecimalZ.of_to. now rewrite String.eqb_refl.
  - destruct z as [|p|p]; simpl; try discriminate.
    intros H. inversion H.
    now apply (DecimalPos.Unsigned.to_uint_nonnil p).
  - destruct z as [|p|p]; simpl; try discriminate.
    intros H. inversion H.
    now apply (DecimalPos.Unsigned.to_uint_nonnil p).
Qed.

(** The stand-in accepts the text of [true] and of every safe integer. *)
Lemma JSON_parse_sample_accepts :
  (exists v, JSON_parse_sample "true" = inr v) /\
  (forall n : safe_integer,
     exists v,
       JSON_parse_sample (NilZero.string_of_int (Z.to_int (integer_value n))) =
       inr v).
Proof.
  split; [eexists; reflexivity|].
  intros n. unfold JSON_parse_sample.
  repeat match goal with
         | |- context [String.eqb ?a ?b] => destruct (String.eqb a b); eauto
         end.
  rewrite integer_of_text_written.
  destruct (safe_integer_of_safe _ (integer_is_safe n)) as [k ->]. eauto.
Qed.

(** *** Parsing of the prompt input values, over any [JSON.parse] *)

(** C9 (as the code has it). An object-valued prompt-input-values field is
    used as it is, [JSON.parse] playing no part in the run: for a named
    worker with a supervisor, the check of the variables and the
    substitution loop work on that very object.  The malformed-JSON error
    is raised only for a string-valued field, non-empty, that [JSON.parse]
    rejected ([JSON.parse] accepting the text of [true] and of every
    integer), unless it is the agent library that throws it inside
    [createAgent]; and for a named worker every non-empty text that
    [JSON.parse] rejects makes [init] fail with the error whose message ends
    in the text of the exception. *)
Theorem init_promptValues_parsing
    {Tool BoundModel number ITeamState RunnableConfig : Type}
    (parseFloat : string -> number) (env_DEBUG : option string)
    (JSON_parse : string -> string + jsval)
    (getInputVariables : string -> list string)
    (prompt_error : list PromptMessage -> option exn)
    (sequence_error : list (Runnable Tool BoundModel) -> option exn)
    (executor_error : AgentExecutor Tool BoundModel number -> option exn)
    (agent_invoke :
       Agent Tool BoundModel number -> InvokeInput ITeamState ->
       RunnableConfig ->
       World Tool BoundModel number ITeamState RunnableConfig ->
       exn + InvokeResult)
    (nodeData : INodeData Tool BoundModel) (input : string) (options : Options)
    (w : World Tool BoundModel number ITeamState RunnableConfig)
    (i : Inputs Tool BoundModel) :
  inputs nodeData = Some i ->
  let run parse :=
    init parseFloat env_DEBUG parse getInputVariables prompt_error
      sequence_error executor_error agent_invoke nodeData input options w in
  let names := getInputVariables (workerPrompt i) in
  (Js.typeof_object (promptValues i) = true ->
   (forall JSON_parse' : string -> string + jsval,
      run JSON_parse' = run JSON_parse) /\
   (Js.truthy (promptValues i) = true ->
    parsePromptValues JSON_parse (promptValues i) = inr (promptValues i) /\
    forall workerLabel s,
      workerName i = Some workerLabel ->
      JsString.truthy workerLabel = true ->
      supervisor i = Some s ->
      (every_provided (promptValues i) names = inr false ->
       run JSON_parse =
       (w, inl (Error "Worker input variables values are not provided!"))) /\
      (forall prompt,
         every_provided (promptValues i) names = inr true ->
         substitute (promptValues i) names (workerPrompt i) = inr prompt ->
         prompts_passed (new_calls w (fst (run JSON_parse))) = [prompt]))) /\
  ((exists v, JSON_parse "true" = inr v) ->
   (forall n : safe_integer,
      exists v,
        JSON_parse (NilZero.string_of_int (Z.to_int (integer_value n))) = inr v) ->
   forall text,
     snd (run JSON_parse) =
     inl (Error ("Invalid JSON in the Worker's Prompt Input Values: " ++ text)) ->
     (exists s,
        promptValues i = JStr s /\
        JsString.truthy s = true /\
        JSON_parse s = inl text) \/
     (exists llm tools systemPrompt maxIterations flowObj,
        new_calls w (fst (run JSON_parse)) =
          [CreateAgentCalled llm tools systemPrompt maxIterations flowObj] /\
        snd (createAgent parseFloat env_DEBUG prompt_error sequence_error
               executor_error llm tools systemPrompt maxIterations flowObj w) =
        inl (Error ("Invalid JSON in the Worker's Prompt Input Values: " ++ text)))) /\
  (forall workerLabel s text,
     workerName i = Some workerLabel ->
     JsString.truthy workerLabel = true ->
     promptValues i = JStr s ->
     JsString.truthy s = true ->
     JSON_parse s = inl text ->
     run JSON_parse =
     (w, inl (Error ("Invalid JSON in the Worker's Prompt Input Values: " ++ text)))).
Proof.
  intros Hi run names. split; [|split].
  - intros Hobj. split.
    + intros JSON_parse'. unfold run, init, parsePromptValues.
      rewrite Hi, Hobj. reflexivity.
    + intros Htruthy. split.
      * unfold parsePromptValues. now rewrite Htruthy, Hobj.
      * intros workerLabel s Hn Ht Hs.
        exact (init_object_values _ _ _ _ _ parseFloat env_DEBUG JSON_parse
                 getInputVariables prompt_error sequence_error executor_error
                 agent_invoke nodeData input options w i workerLabel s
                 Hi Hn Ht Hs Hobj Htruthy).
  - intros Htrue Hint text H.
    destruct (invalid_json_only_for_text _ _ _ _ _ parseFloat env_DEBUG
                JSON_parse getInputVariables prompt_error sequence_error
                executor_error agent_invoke nodeData input options w text
                Htrue Hint H) as [[i' [s [Hi' H']]]|K].
    + left. rewrite Hi in Hi'. inversion Hi'. subst i'. exists s. exact H'.
    + right. exact K.
  - intros workerLabel s text Hn Ht Hv Hs Hj.
    now apply (invalid_json_on_rejected_text _ _ _ _ _ parseFloat env_DEBUG
                 JSON_parse getInputVariables prompt_error sequence_error
                 executor_error agent_invoke nodeData input options w i
                 workerLabel s text).
Qed.

(** ** Examples *)

#[local, warnings="-notation-for-abbreviation"] Notation sample_invoke r :=
  (fun (_ : Agent string (list string) string) (_ : InvokeInput (list string))
       (_ : unit) (_ : World string (list string) string (list string) unit) =>
     r).

#[local, warnings="-notation-for-abbreviation"] Notation init_sample nodeData :=
  (init (fun s : string => s) None JSON_parse_sample getInputVariables_spec
     prompt_error_sample sequence_error_sample (fun _ => None)
     (sample_invoke (inr (ResString "done")))
     nodeData "question" sample_options (sample_world false)).

#[local, warnings="-notation-for-abbreviation"] Notation sample_chain :=
  (Chain (Tool:=string) (BoundModel:=list string) (number:=string)
     [StringOutputParser]).

Example replaceAll_examples :
  JsString.replaceAll "xaaay" "aa" "b" = "xbay" /\
  JsString.replaceAll "x{a}y" "{a}" "[$&|$`|$'|$$|$1]" = "x[{a}|x|y|$|$1]y" /\
  JsString.replaceAll "ab" "" "-" = "-a-b-" /\
  JsString.trim "  a b  " = "a b".
Proof. repeat split. Qed.

Example getInputVariables_spec_examples :
  getInputVariables_spec "You are {role}, answer about {topic}." = ["role"; "topic"] /\
  getInputVariables_spec "{x} and {y} and {x}" = ["x"; "y"] /\
  getInputVariables_spec "no variables" = [].
Proof. repeat split. Qed.



(** An error of the model is reported as 'Aborted!'. *)
Lemma agentNode_fails_with_aborted_witness :
  snd (agentNode (sample_invoke (inl (Error "model timeout")))
         ["hello"] sample_chain "research_assistant"
         (Some sample_controller) tt (sample_world false)) =
  inl (Error "Aborted!").
Proof.
  exact (proj2
           (agentNode_fails_with_aborted string (list string) string
              (list string) unit (sample_invoke (inl (Error "model timeout")))
              ["hello"] sample_chain "research_assistant"
              (Some sample_controller) tt (sample_world false))
           sample_controller (Error "model timeout") eq_refl eq_refl).
Defined.

(** With the signal set, nothing is invoked. *)
Lemma agentNode_aborted_on_entry_witness :
  agentNode (sample_invoke (inr (ResString "done")))
    ["hello"] sample_chain "research_assistant"
    (Some sample_controller) tt (sample_world true) =
  (sample_world true, inl (Error "Aborted!")) /\
  new_calls (sample_world true)
    (fst (agentNode (sample_invoke (inr (ResString "done")))
            ["hello"] sample_chain "research_assistant"
            (Some sample_controller) tt (sample_world true))) = [].
Proof.
  exact (agentNode_aborted_on_entry string (list string) string (list string)
           unit (sample_invoke (inr (ResString "done")))
           ["hello"] sample_chain "research_assistant" sample_controller tt
           (sample_world true) eq_refl).
Defined.



(** A model without [bindTools] is refused when tools are given; a model
    with it gives an executor over those tools. *)
Lemma createAgent_requires_bindTools_witness :
  snd (createAgent (ITeamState:=list string) (RunnableConfig:=unit)
         (fun s : string => s) None
         prompt_error_sample sequence_error_sample (fun _ => None)
         (Some (sample_model (Tool:=string) (BoundModel:=list string) "plain" None))
         ["search"] "Be brief." None None (sample_world false)) =
  inl (Error "This agent only compatible with function calling models.") /\
  exists executor,
    snd (createAgent (ITeamState:=list string) (RunnableConfig:=unit)
           (fun s : string => s) None
           prompt_error_sample sequence_error_sample (fun _ => None)
           (Some (sample_model "calling"
                    (Some (fun ts : list string => inr ts))))
           ["search"] "Be brief." None None (sample_world false)) =
    inr (Executor executor) /\
    executor_tools executor = ["search"].
Proof.
  assert (Hne : ["search"] <> []) by discriminate.
  split.
  - exact (proj1 (proj2
             (createAgent_requires_bindTools string (list string) string
                (list string) unit (fun s => s) None
                prompt_error_sample sequence_error_sample (fun _ => None)
                (sample_model "plain" None) ["search"] "Be brief." None None
                (sample_world false) Hne)) eq_refl eq_refl).
  - destruct (proj2 (proj2
                (createAgent_requires_bindTools string (list string) string
                   (list string) unit (fun s => s) None
                   prompt_error_sample sequence_error_sample (fun _ => None)
                   (sample_model "calling"
                      (Some (fun ts : list string => inr ts)))
                   ["search"] "Be brief." None None
                   (sample_world false) Hne))
                (fun ts : list string => inr ts) ["search"]
                eq_refl eq_refl eq_refl eq_refl (fun _ _ => eq_refl))
      as [executor [Hrun [Htools _]]].
    exists executor. split; assumption.
Defined.

(** A system prompt with a closing brace alone: the library refuses the
    prompt before the model is looked at, so that a model without
    [bindTools] does not get the unsupported-model error, and a model with
    [bindTools] gets no executor. *)
Lemma createAgent_prompt_refused_first :
  snd (createAgent (ITeamState:=list string) (RunnableConfig:=unit)
         (fun s : string => s) None
         prompt_error_sample sequence_error_sample (fun _ => None)
         (Some (sample_model (Tool:=string) (BoundModel:=list string) "plain" None))
         ["search"] "Be brief }" None None (sample_world false)) =
  inl (Error "Single '}' in template.") /\
  snd (createAgent (ITeamState:=list string) (RunnableConfig:=unit)
         (fun s : string => s) None
         prompt_error_sample sequence_error_sample (fun _ => None)
         (Some (sample_model "calling" (Some (fun ts : list string => inr ts))))
         ["search"] "Be brief }" None None (sample_world false)) =
  inl (Error "Single '}' in template.").
Proof. split; reflexivity. Qed.

(** The name of the spec's example, and a name with a no-break space and
    an ideographic space, with the stand-in table of lower-case letters. *)
Lemma normalize_units_idempotent_witness :
  normalize_units JsUnits.toLowerCase_sample
    (JsUnits.of_string "Research Assistant") =
  JsUnits.of_string "research_assistant" /\
  normalize_units JsUnits.toLowerCase_sample [82; 160; 68; 12288]%N =
  [114; 95; 100; 95]%N /\
  normalize_units JsUnits.toLowerCase_sample
    (normalize_units JsUnits.toLowerCase_sample [82; 160; 68; 12288]%N) =
  normalize_units JsUnits.toLowerCase_sample [82; 160; 68; 12288]%N.
Proof.
  pose proof
    (normalize_units_idempotent JsUnits.toLowerCase_sample
       toLowerCase_sample_idempotent toLowerCase_sample_underscore
       units_of_lower) as [Hidem Hexample].
  split; [exact Hexample|]. split; [reflexivity|].
  exact (Hidem [82; 160; 68; 12288]%N).
Defined.

(** Without a worker name, and with an empty one, construction stops at
    the name check. *)
Lemma init_requires_name_witness :
  init_sample (sample_nodeData None "Be brief." JUndefined None IsUndefined) =
  (sample_world false, inl (Error "Worker name is required!")) /\
  init_sample (sample_nodeData (Some "") "Be brief." JUndefined None IsUndefined) =
  (sample_world false, inl (Error "Worker name is required!")).
Proof.
  split.
  - exact (proj1
             (init_requires_name string (list string) string (list string) unit
                (fun s => s) None JSON_parse_sample getInputVariables_spec
                prompt_error_sample sequence_error_sample (fun _ => None)
                (sample_invoke (inr (ResString "done")))
                (sample_nodeData None "Be brief." JUndefined None IsUndefined)
                "question" sample_options (sample_world false)
                (or_introl eq_refl))).
  - exact (proj1
             (init_requires_name string (list string) string (list string) unit
                (fun s => s) None JSON_parse_sample getInputVariables_spec
                prompt_error_sample sequence_error_sample (fun _ => None)
                (sample_invoke (inr (ResString "done")))
                (sample_nodeData (Some "") "Be brief." JUndefined None IsUndefined)
                "question" sample_options (sample_world false)
                (or_intror eq_refl))).
Defined.

(** A worker with its own model builds its agent on it; one without builds
    it on the supervisor's. *)
Lemma init_effective_model_witness :
  models_passed
    (new_calls (sample_world false)
       (fst (init_sample
               (sample_nodeData (Some "Worker") "Be brief." JUndefined
                  (Some (sample_model "own model" None)) IsUndefined)))) =
  [Some (sample_model "own model" None)] /\
  models_passed
    (new_calls (sample_world false)
       (fst (init_sample
               (sample_nodeData (Some "Worker") "Be brief." JUndefined
                  None IsUndefined)))) =
  [Some (sample_model "supervisor model" None)].
Proof.
  split.
  - exact (proj1
             (proj2 (proj2 (proj2 (proj2
                (init_effective_model string (list string) string (list string)
                   unit (fun s => s) None JSON_parse_sample getInputVariables_spec
                   prompt_error_sample sequence_error_sample (fun _ => None)
                   (sample_invoke (inr (ResString "done")))
                   (sample_nodeData (Some "Worker") "Be brief." JUndefined
                      (Some (sample_model "own model" None)) IsUndefined)
                   "question" sample_options (sample_world false)
                   (sample_inputs (Some "Worker") "Be brief." JUndefined
                      (Some (sample_model "own model" None)) IsUndefined)
                   eq_refl))))
                "Worker" (JObj []) "Be brief."
                eq_refl eq_refl eq_refl eq_refl eq_refl)
             (sample_model "own model" None) eq_refl).
  - exact (proj2
             (proj2 (proj2 (proj2 (proj2
                (init_effective_model string (list string) string (list string)
                   unit (fun s => s) None JSON_parse_sample getInputVariables_spec
                   prompt_error_sample sequence_error_sample (fun _ => None)
                   (sample_invoke (inr (ResString "done")))
                   (sample_nodeData (Some "Worker") "Be brief." JUndefined
                      None IsUndefined)
                   "question" sample_options (sample_world false)
                   (sample_inputs (Some "Worker") "Be brief." JUndefined
                      None IsUndefined)
                   eq_refl))))
                "Worker" (JObj []) "Be brief."
                eq_refl eq_refl eq_refl eq_refl eq_refl)
             (sample_supervisor IsUndefined) eq_refl eq_refl).
Defined.

(** A text cut short stops construction with the malformed-JSON error,
    and that error leads back to the text. *)
Lemma init_promptValues_parsing_witness :
  init_sample (sample_nodeData (Some "Worker") "Be brief." (JStr "{") None IsUndefined) =
  (sample_world false,
   inl (Error ("Invalid JSON in the Worker's Prompt Input Values: " ++
               "SyntaxError: Unexpected end of JSON input"))) /\
  exists s,
    JStr "{" = JStr s /\
    JsString.truthy s = true /\
    JSON_parse_sample s = inl "SyntaxError: Unexpected end of JSON input".
Proof.
  pose proof
    (init_promptValues_parsing (fun s => s) None JSON_parse_sample
       getInputVariables_spec
       prompt_error_sample sequence_error_sample (fun _ => None)
       (sample_invoke (inr (ResString "done")))
       (sample_nodeData (Some "Worker") "Be brief." (JStr "{") None
          IsUndefined)
       "question" sample_options (sample_world false)
       (sample_inputs (Some "Worker") "Be brief." (JStr "{") None
          IsUndefined)
       eq_refl) as H.
  cbv zeta in H. destruct H as [_ [Honly Hrejected]].
  split.
  - exact (Hrejected "Worker" "{" "SyntaxError: Unexpected end of JSON input"
             eq_refl eq_refl eq_refl eq_refl eq_refl).
  - destruct (Honly (proj1 JSON_parse_sample_accepts)
                (proj2 JSON_parse_sample_accepts)
                "SyntaxError: Unexpected end of JSON input" eq_refl)
      as [K|[llm [tools [p [mi [fo [K _]]]]]]]; [exact K | discriminate K].
Defined.

(** The empty text is not valid JSON, yet a worker configured with it is
    constructed: the empty text is never parsed. *)
Lemma empty_promptValues_not_parsed :
  JSON_parse_sample "" = inl "SyntaxError: Unexpected end of JSON input" /\
  (exists worker,
     snd (init_sample
            (sample_nodeData (Some "Worker") "Be brief." (JStr "") None
               IsUndefined)) = inr worker) /\
  forall e,
    snd (init_sample
           (sample_nodeData (Some "Worker") "Be brief." (JStr "") None
              IsUndefined)) <> inl e.
Proof.
  split; [reflexivity|]. split.
  - eexists. reflexivity.
  - intros e H. discriminate H.
Qed.

(** A supervisor without a name gives the parent name 'supervisor'. *)
Lemma init_parentSupervisorName_witness :
  exists worker,
    snd (init_sample
           (sample_nodeData (Some "Worker") "Be brief." JUndefined None IsNull))
    = inr worker /\
    parentSupervisorName worker = "supervisor".
Proof.
  eexists. split; [reflexivity|].
  destruct
    (init_parentSupervisorName string (list string) string (list string) unit
       (fun s => s) None JSON_parse_sample getInputVariables_spec
       prompt_error_sample sequence_error_sample (fun _ => None)
       (sample_invoke (inr (ResString "done")))
       (sample_nodeData (Some "Worker") "Be brief." JUndefined None IsNull)
       "question" sample_options (sample_world false) _ eq_refl)
    as [i [s [Hi [Hs [_ Hdefault]]]]].
  injection Hi as <-. injection Hs as <-.
  exact (Hdefault (or_introl eq_refl)).
Defined.

(** ** Examples for the further properties *)

#[local, warnings="-notation-for-abbreviation"] Notation init_parsing parse nodeData options :=
  (init (fun s : string => s) None parse getInputVariables_spec
     prompt_error_sample sequence_error_sample (fun _ => None)
     (sample_invoke (inr (ResString "done")))
     nodeData "question" options (sample_world false)).

#[local, warnings="-notation-for-abbreviation"] Notation sample_values :=
  (JObj [("role", JStr "analyst"); ("topic", JStr "markets")]).

#[local, warnings="-notation-for-abbreviation"] Notation sample_template :=
  "You are {role}, answer about {topic}.".

(** The worker of the spec's example, field by field. *)
Lemma init_worker_fields_witness :
  exists worker,
    snd (init_sample
           (sample_nodeData (Some "Research Assistant") sample_template
              sample_values None IsUndefined)) = inr worker /\
    name worker = "research_assistant" /\
    label worker = "Research Assistant" /\
    workerInputVariables worker = ["role"; "topic"] /\
    prompts_passed
      (new_calls (sample_world false)
         (fst (init_sample
                 (sample_nodeData (Some "Research Assistant") sample_template
                    sample_values None IsUndefined)))) =
    ["You are analyst, answer about markets."].
Proof.
  eexists. split; [reflexivity|].
  destruct
    (init_worker_fields string (list string) string (list string) unit
       (fun s => s) None JSON_parse_sample getInputVariables_spec
       prompt_error_sample sequence_error_sample (fun _ => None)
       (sample_invoke (inr (ResString "done")))
       (sample_nodeData (Some "Research Assistant") sample_template
          sample_values None IsUndefined)
       "question" sample_options (sample_world false) _ eq_refl)
    as [i [l [v [Hi [Hn [_ [_ [Hname [Hlabel [_ [Hvars [_ [_ Hpass]]]]]]]]]]]]].
  injection Hi as <-. injection Hn as <-.
  split; [exact Hname|]. split; [exact Hlabel|]. split; [exact Hvars|].
  exact Hpass.
Defined.

(** A worker with its own model but no supervisor: the agent is
    constructed, then reading the supervisor's name throws. *)
Lemma init_without_supervisor_witness :
  snd (init_sample
         {| inputs :=
              Some (with_supervisor
                      (sample_inputs (Some "Worker") "Be brief." JUndefined
                         (Some (sample_model "own model" None)) IsUndefined)
                      None) |}) =
  inl (TypeError "Cannot read properties of undefined (reading 'name')") /\
  models_passed
    (new_calls (sample_world false)
       (fst (init_sample
               {| inputs :=
                    Some (with_supervisor
                            (sample_inputs (Some "Worker") "Be brief." JUndefined
                               (Some (sample_model "own model" None)) IsUndefined)
                            None) |}))) =
  [Some (sample_model "own model" None)].
Proof.
  exact (proj2 (proj2
           (init_without_supervisor string (list string) string (list string)
              unit (fun s => s) None JSON_parse_sample getInputVariables_spec
              prompt_error_sample sequence_error_sample (fun _ => None)
              (sample_invoke (inr (ResString "done")))
              {| inputs :=
                   Some (with_supervisor
                           (sample_inputs (Some "Worker") "Be brief." JUndefined
                              (Some (sample_model "own model" None)) IsUndefined)
                           None) |}
              "question" sample_options (sample_world false)
              (with_supervisor
                 (sample_inputs (Some "Worker") "Be brief." JUndefined
                    (Some (sample_model "own model" None)) IsUndefined)
                 None)
              "Worker" (JObj [])
              eq_refl eq_refl eq_refl eq_refl eq_refl))
           (sample_model "own model" None) "Be brief." _
           eq_refl eq_refl eq_refl eq_refl).
Defined.

(** The empty text as values runs like the empty object. *)
Lemma init_falsy_promptValues_witness :
  init_sample (sample_nodeData (Some "Worker") "Be brief." (JStr "") None
                 IsUndefined) =
  init_sample
    {| inputs :=
         Some (with_promptValues
                 (sample_inputs (Some "Worker") "Be brief." (JStr "") None
                    IsUndefined)
                 (JObj [])) |}.
Proof.
  exact (init_falsy_promptValues string (list string) string (list string)
           unit (fun s => s) None JSON_parse_sample getInputVariables_spec
           prompt_error_sample sequence_error_sample (fun _ => None)
           (sample_invoke (inr (ResString "done")))
           (sample_nodeData (Some "Worker") "Be brief." (JStr "") None IsUndefined)
           "question" sample_options (sample_world false)
           (sample_inputs (Some "Worker") "Be brief." (JStr "") None IsUndefined)
           eq_refl eq_refl).
Defined.

(** Values that parse to [null] do no harm to a template without
    variable. *)
Lemma init_without_variables_witness :
  prompts_passed
    (new_calls (sample_world false)
       (fst (init_parsing JSON_parse_sample
               (sample_nodeData (Some "Worker") "Be brief." (JStr "null") None
                  IsUndefined)
               sample_options))) =
  ["Be brief."].
Proof.
  exact (proj1
           (init_without_variables string (list string) string (list string)
              unit (fun s => s) None JSON_parse_sample getInputVariables_spec
              prompt_error_sample sequence_error_sample (fun _ => None)
              (sample_invoke (inr (ResString "done")))
              (sample_nodeData (Some "Worker") "Be brief." (JStr "null") None
                 IsUndefined)
              "question" sample_options (sample_world false)
              (sample_inputs (Some "Worker") "Be brief." (JStr "null") None
                 IsUndefined)
              "Worker" JNull (sample_supervisor IsUndefined)
              eq_refl eq_refl eq_refl eq_refl eq_refl eq_refl)).
Defined.

(** With a variable in the template, [null] values end in a [TypeError]
    and a number as values in the missing-values error. *)
Lemma init_values_without_properties_witness :
  init_parsing JSON_parse_sample
    (sample_nodeData (Some "Worker") "Hello {who}" (JStr "null") None IsUndefined)
    sample_options =
  (sample_world false,
   inl (TypeError "Cannot convert undefined or null to object")) /\
  init_parsing JSON_parse_sample
    (sample_nodeData (Some "Worker") "Hello {who}" (JArr []) None IsUndefined)
    sample_options =
  (sample_world false,
   inl (Error "Worker input variables values are not provided!")).
Proof.
  assert (Hv : getInputVariables_spec "Hello {who}" <> []) by discriminate.
  split.
  - exact (proj1
             (init_values_without_properties string (list string) string
                (list string) unit (fun s => s) None JSON_parse_sample
                getInputVariables_spec prompt_error_sample sequence_error_sample (fun _ => None) (sample_invoke (inr (ResString "done")))
                (sample_nodeData (Some "Worker") "Hello {who}" (JStr "null") None
                   IsUndefined)
                "question" sample_options (sample_world false)
                (sample_inputs (Some "Worker") "Hello {who}" (JStr "null") None
                   IsUndefined)
                "Worker" JNull (sample_supervisor IsUndefined)
                eq_refl eq_refl eq_refl eq_refl eq_refl Hv) eq_refl).
  - exact (proj2
             (init_values_without_properties string (list string) string
                (list string) unit (fun s => s) None JSON_parse_sample
                getInputVariables_spec prompt_error_sample sequence_error_sample (fun _ => None) (sample_invoke (inr (ResString "done")))
                (sample_nodeData (Some "Worker") "Hello {who}" (JArr []) None
                   IsUndefined)
                "question" sample_options (sample_world false)
                (sample_inputs (Some "Worker") "Hello {who}" (JArr []) None
                   IsUndefined)
                "Worker" (JArr []) (sample_supervisor IsUndefined)
                eq_refl eq_refl eq_refl eq_refl eq_refl Hv) eq_refl).
Defined.

(** Without tools the worker is returned, also on a model without
    [bindTools]. *)
Lemma init_outcome_by_tools_witness :
  exists worker,
    snd (init_sample
           (sample_nodeData (Some "Research Assistant") sample_template
              sample_values None IsUndefined)) = inr worker.
Proof.
  exact (proj1 (proj2
           (init_outcome_by_tools string (list string) string (list string)
              unit (fun s => s) None JSON_parse_sample getInputVariables_spec
              prompt_error_sample sequence_error_sample (fun _ => None)
              (sample_invoke (inr (ResString "done")))
              (sample_nodeData (Some "Research Assistant") sample_template
                 sample_values None IsUndefined)
              "question" sample_options (sample_world false)
              (sample_inputs (Some "Research Assistant") sample_template
                 sample_values None IsUndefined)
              "Research Assistant" sample_values (sample_supervisor IsUndefined)
              "You are analyst, answer about markets."
              eq_refl eq_refl eq_refl eq_refl eq_refl eq_refl eq_refl))
           eq_refl eq_refl eq_refl).
Defined.

(** The failure of a worker with cut-short values is the malformed-JSON
    error, not 'Aborted!'. *)
Lemma init_failure_kinds_witness :
  (exists text,
     Error ("Invalid JSON in the Worker's Prompt Input Values: " ++
            "SyntaxError: Unexpected end of JSON input") =
     Error ("Invalid JSON in the Worker's Prompt Input Values: " ++ text)) /\
  Error ("Invalid JSON in the Worker's Prompt Input Values: " ++
         "SyntaxError: Unexpected end of JSON input") <> Error "Aborted!".
Proof.
  destruct
    (proj1
       (init_failure_kinds string (list string) string (list string) unit
          (fun s => s) None JSON_parse_sample getInputVariables_spec
          prompt_error_sample sequence_error_sample (fun _ => None)
          (sample_invoke (inr (ResString "done")))
          (sample_nodeData (Some "Worker") "Be brief." (JStr "{") None IsUndefined)
          "question" sample_options (sample_world false)
          (Error ("Invalid JSON in the Worker's Prompt Input Values: " ++
                  "SyntaxError: Unexpected end of JSON input"))
          eq_refl) eq_refl) as [K Hne].
  split; [|exact Hne].
  destruct K as [K|[K|[[m K]|K]]]; try discriminate K. exact K.
Defined.


(** Constructed without abort controller, the worker aborts every run. *)
Lemma worker_without_controller_witness :
  exists worker,
    snd (init_parsing JSON_parse_sample
           (sample_nodeData (Some "Worker") "Be brief." JUndefined None
              IsUndefined)
           {| options_signal := None; sessionId := None; chatId := None |})
    = inr worker /\
    forall (state : list string) (config : unit)
           (w1 : World string (list string) string (list string) unit),
      node worker state config w1 = (w1, inl (Error "Aborted!")).
Proof.
  eexists. split; [reflexivity|].
  exact (worker_without_controller string (list string) string (list string)
           unit (fun s => s) None JSON_parse_sample getInputVariables_spec
           prompt_error_sample sequence_error_sample (fun _ => None)
           (sample_invoke (inr (ResString "done")))
           (sample_nodeData (Some "Worker") "Be brief." JUndefined None
              IsUndefined)
           "question"
           {| options_signal := None; sessionId := None; chatId := None |}
           (sample_world false) _ eq_refl eq_refl).
Defined.

(** The value [$&] leaves the placeholder where it was. *)
Lemma substitute_dollar_ampersand_witness :
  substitute (JObj [("x", JStr "$&")]) ["x"] "Say {x}, then {x}." =
  inr "Say {x}, then {x}.".
Proof.
  exact (substitute_dollar_ampersand [("x", JStr "$&")] ["x"]
           "Say {x}, then {x}." eq_refl).
Defined.

(** A name without placeholder in the prompt changes nothing. *)
Lemma substitute_without_occurrence_witness :
  substitute (JObj [("y", JStr "never used")]) ["y"] "Say {x}." =
  inr "Say {x}.".
Proof.
  exact (substitute_without_occurrence [("y", JStr "never used")] ["y"]
           "Say {x}." eq_refl eq_refl eq_refl).
Defined.

(** The names of the spec's example in another order, with a repetition
    and a name without placeholder, give the same prompt. *)
Lemma substitute_order_irrelevant_witness :
  substitute
    (JObj [("role", JStr "analyst"); ("topic", JStr "markets");
           ("other", JStr "unused")])
    ["role"; "topic"] sample_template =
  substitute
    (JObj [("role", JStr "analyst"); ("topic", JStr "markets");
           ("other", JStr "unused")])
    ["topic"; "other"; "role"; "topic"] sample_template.
Proof.
  exact (substitute_order_irrelevant
           [("role", JStr "analyst"); ("topic", JStr "markets");
            ("other", JStr "unused")]
           ["role"; "topic"] ["topic"; "other"; "role"; "topic"]
           (text "You are " ++ [Placeholder "role"] ++
            text ", answer about " ++ [Placeholder "topic"] ++ text ".")%list
           eq_refl eq_refl eq_refl eq_refl eq_refl eq_refl eq_refl eq_refl
           eq_refl).
Defined.

(** Only [role] extracted: the placeholder of [topic] stays. *)
Lemma substitute_replaces_extracted_witness :
  substitute sample_values ["role"] sample_template =
  inr "You are analyst, answer about {topic}.".
Proof.
  exact (substitute_replaces_extracted
           [("role", JStr "analyst"); ("topic", JStr "markets")]
           ["role"]
           (text "You are " ++ [Placeholder "role"] ++
            text ", answer about " ++ [Placeholder "topic"] ++ text ".")%list
           eq_refl eq_refl eq_refl eq_refl eq_refl).
Defined.

(** The text of the empty object runs like the empty object. *)
Lemma init_text_or_object_witness :
  init_sample (sample_nodeData (Some "Worker") "Be brief." (JStr "{}") None
                 IsUndefined) =
  init_sample
    {| inputs :=
         Some (with_promptValues
                 (sample_inputs (Some "Worker") "Be brief." (JStr "{}") None
                    IsUndefined)
                 (JObj [])) |}.
Proof.
  exact (init_text_or_object string (list string) string (list string) unit
           (fun s => s) None JSON_parse_sample getInputVariables_spec
           prompt_error_sample sequence_error_sample (fun _ => None)
           (sample_invoke (inr (ResString "done")))
           (sample_nodeData (Some "Worker") "Be brief." (JStr "{}") None
              IsUndefined)
           "question" sample_options (sample_world false)
           (sample_inputs (Some "Worker") "Be brief." (JStr "{}") None
              IsUndefined)
           "{}" (JObj [])
           eq_refl eq_refl eq_refl eq_refl eq_refl eq_refl).
Defined.
